(** * Trivia API: the request handlers of [backend/flaskr/__init__.py]

    A shallow embedding of the Flask handlers and of the helper
    [paginate_questions], with the properties of the specification stated
    over it.

    Conventions of the embedding:
    - Python integers are [Z]; list lengths are converted with [Z.of_nat].
    - Python strings are [string]; the query values and the question texts
      are taken to be ASCII text (case folding is the ASCII one).
    - a handler is a computation in a state-and-exception monad over the
      storage: [abort(code)] raises an [HTTPException], a bare [except:]
      catches every exception.
    - [models.py] is not part of the sources at hand; the storage operations
      are modelled from the data model of the specification and marked so. *)

From Stdlib Require Import ZArith List String Ascii Bool Lia Sorted Permutation.
Import ListNotations.
Open Scope string_scope.
Open Scope list_scope.
Open Scope Z_scope.

(** ** Python primitives used by the handlers *)

Module Py.

(** [PySlice_AdjustIndices] for step 1: a negative index counts from the end,
    then the index is clamped to [0 .. n]. *)
Definition adjust_index (n i : Z) : Z :=
  if i <? 0 then (if i + n <? 0 then 0 else i + n)
  else if n <=? i then n else i.

(** [l[start:stop]] *)
Definition slice {A : Type} (l : list A) (start stop : Z) : list A :=
  let n := Z.of_nat (List.length l) in
  let a := adjust_index n start in
  let b := adjust_index n stop in
  firstn (Z.to_nat (b - a)) (skipn (Z.to_nat a) l).

(** [math.ceil(n / 10)] for a list length [n]: the quotient is a float, whose
    ceiling is the integer ceiling for every length below 2^49. *)
Definition ceil_div (n d : Z) : Z := (n + d - 1) / d.

(** The characters that [int] skips before and after the number in an ASCII
    string: tab, line feed, vertical tab, form feed, carriage return and
    space. *)
Definition isspace (c : ascii) : bool :=
  let k := Z.of_nat (nat_of_ascii c) in
  ((9 <=? k) && (k <=? 13)) || (k =? 32).

Definition digit_value (c : ascii) : option Z :=
  let k := Z.of_nat (nat_of_ascii c) in
  if (48 <=? k) && (k <=? 57) then Some (k - 48) else None.

Fixpoint lstrip (s : list ascii) : list ascii :=
  match s with
  | c :: s' => if isspace c then lstrip s' else s
  | [] => []
  end.

Definition strip (s : list ascii) : list ascii :=
  rev (lstrip (rev (lstrip s))).

(** The digits of a decimal literal after its first digit: digits, each
    optionally preceded by one underscore. [acc] is the value read so far. *)
Fixpoint int_digits (acc : Z) (s : list ascii) : option Z :=
  match s with
  | [] => Some acc
  | c :: s' =>
      match digit_value c with
      | Some d => int_digits (10 * acc + d) s'
      | None =>
          if Ascii.eqb c "_"%char then
            match s' with
            | c' :: s'' =>
                match digit_value c' with
                | Some d => int_digits (10 * acc + d) s''
                | None => None
                end
            | [] => None
            end
          else None
      end
  end.

Definition int_unsigned (s : list ascii) : option Z :=
  match s with
  | c :: s' =>
      match digit_value c with
      | Some d => int_digits d s'
      | None => None
      end
  | [] => None
  end.

(** [int(s)] in base 10; [None] stands for [ValueError]. *)
Definition int (s : string) : option Z :=
  match strip (list_ascii_of_string s) with
  | c :: s' =>
      if Ascii.eqb c "-"%char then option_map Z.opp (int_unsigned s')
      else if Ascii.eqb c "+"%char then int_unsigned s'
      else int_unsigned (c :: s')
  | [] => None
  end.

(** ASCII [lower()] of one character. *)
Definition lower_ascii (c : ascii) : ascii :=
  let k := nat_of_ascii c in
  if (65 <=? k)%nat && (k <=? 90)%nat then ascii_of_nat (k + 32) else c.

Definition lower (s : list ascii) : list ascii := map lower_ascii s.

End Py.

(** ** SQL pattern matching, as the storage engine evaluates [ILIKE] *)

Module Sql.

(** [text LIKE pattern]: [%] matches any run of characters, [_] matches one
    character, a backslash makes the next pattern character literal.
    A pattern that ends in a lone backslash matches nothing. *)
Fixpoint like (pattern text : list ascii) : bool :=
  match pattern with
  | [] => match text with [] => true | _ :: _ => false end
  | p :: pattern' =>
      if Ascii.eqb p "%"%char then
        (fix any_run (t : list ascii) : bool :=
           like pattern' t ||
           match t with
           | [] => false
           | _ :: t' => any_run t'
           end) text
      else if Ascii.eqb p "_"%char then
        match text with
        | [] => false
        | _ :: text' => like pattern' text'
        end
      else if Ascii.eqb p "\"%char then
        match pattern' with
        | [] => false
        | q :: pattern'' =>
            match text with
            | [] => false
            | c :: text' => Ascii.eqb q c && like pattern'' text'
            end
        end
      else
        match text with
        | [] => false
        | c :: text' => Ascii.eqb p c && like pattern' text'
        end
  end.

(** [column.ilike(pattern)]: [LIKE] after case folding of both sides. *)
Definition ilike (text pattern : string) : bool :=
  like (Py.lower (list_ascii_of_string pattern))
       (Py.lower (list_ascii_of_string text)).

End Sql.

(** ** The storage schema *)

Module Question.
Record t := mk
  { id : Z; question : string; answer : string; category : Z; difficulty : Z }.
End Question.

Module Category.
Record t := mk { id : Z; type : string }.
End Category.

(** The two tables, rows in storage order, and the sequence that numbers new
    questions. *)
Record Storage := mkStorage
  { questions : list Question.t;
    categories : list Category.t;
    question_id_seq : Z }.

(** Primary keys are unique and every assigned id is below the sequence. *)
Definition Storage_wf (s : Storage) : Prop :=
  NoDup (map Question.id (questions s)) /\
  NoDup (map Category.id (categories s)) /\
  Forall (fun q => Question.id q < question_id_seq s) (questions s).

(** ** Exceptions and the handler monad *)

Inductive exn : Type :=
| HTTPException (code : Z)      (* raised by [abort(code)] *)
| MultipleResultsFound          (* raised by [one_or_none()] *)
| IndexError                    (* raised by [random.choice([])] *)
| TypeError                     (* raised by a subscript or a call on [None] *)
| DatabaseError.                (* raised by a failing insert or delete *)

Inductive result (A : Type) : Type :=
| Return (a : A)
| Raise (e : exn).
Arguments Return {A} a.
Arguments Raise {A} e.

(** A computation reads and writes the storage and returns or raises. *)
Definition M (A : Type) : Type := Storage -> result A * Storage.

Definition ret {A} (a : A) : M A := fun s => (Return a, s).

Definition bind {A B} (m : M A) (k : A -> M B) : M B :=
  fun s => match m s with
           | (Return a, s') => k a s'
           | (Raise e, s') => (Raise e, s')
           end.

Definition raise {A} (e : exn) : M A := fun s => (Raise e, s).

Definition abort {A} (code : Z) : M A := raise (HTTPException code).

(** [try: body except: handler], the bare [except] that catches everything. *)
Definition try_except {A} (body handler : M A) : M A :=
  fun s => match body s with
           | (Return a, s') => (Return a, s')
           | (Raise _, s') => handler s'
           end.

Declare Scope handler_scope.
Delimit Scope handler_scope with handler.
Notation "x <- m ;; k" := (bind m (fun x => k))
  (at level 61, m at next level, right associativity) : handler_scope.
Notation "m ;;; k" := (bind m (fun _ => k))
  (at level 61, right associativity) : handler_scope.
Open Scope handler_scope.

(** [if cond: stmt] for a statement that may raise. *)
Definition when (cond : bool) (stmt : M unit) : M unit :=
  if cond then stmt else ret tt.

(** ** Queries over the tables *)

(** An element is placed before the first row whose id is not smaller. *)
Fixpoint insert_by_id (q : Question.t) (l : list Question.t) : list Question.t :=
  match l with
  | [] => [q]
  | x :: l' =>
      if Question.id q <=? Question.id x then q :: l
      else x :: insert_by_id q l'
  end.

(** [query.order_by(Question.id)] *)
Definition order_by_id (l : list Question.t) : list Question.t :=
  fold_right insert_by_id [] l.

Fixpoint insert_cat_by_id (c : Category.t) (l : list Category.t) : list Category.t :=
  match l with
  | [] => [c]
  | x :: l' =>
      if Category.id c <=? Category.id x then c :: l
      else x :: insert_cat_by_id c l'
  end.

(** [query.order_by(Category.id)] *)
Definition order_cat_by_id (l : list Category.t) : list Category.t :=
  fold_right insert_cat_by_id [] l.

(** [Question.query] and [Category.query]: the rows of the table. *)
Definition Question_query : M (list Question.t) :=
  fun s => (Return (questions s), s).

Definition Category_query : M (list Category.t) :=
  fun s => (Return (categories s), s).

(** [query.one_or_none()] *)
Definition one_or_none {A} (rows : list A) : M (option A) :=
  match rows with
  | [] => ret None
  | [x] => ret (Some x)
  | _ :: _ :: _ => raise MultipleResultsFound
  end.

(** Modelled from the spec: [Question.format] of models.py, which is not
    among the sources; a question serializes as its five fields
    [{id, question, answer, category, difficulty}]. *)
Record Formatted := mkFormatted
  { f_id : Z; f_question : string; f_answer : string;
    f_category : Z; f_difficulty : Z }.

Definition format (q : Question.t) : Formatted :=
  {| f_id := Question.id q; f_question := Question.question q;
     f_answer := Question.answer q; f_category := Question.category q;
     f_difficulty := Question.difficulty q |}.

Section Persistence.

(** The storage engine may reject a write for reasons the handlers do not
    see; the two oracles say when it does. *)
Variable insert_raises : Storage -> Question.t -> bool.
Variable delete_raises : Storage -> Question.t -> bool.

(** Modelled from the spec: [Question.insert] of models.py, which is not
    among the sources; the storage assigns the id of the new record and
    persists it. *)
Definition Question_insert (question answer : string) (category difficulty : Z)
  : M Question.t :=
  fun s =>
    let q := Question.mk (question_id_seq s) question answer category difficulty in
    if insert_raises s q then (Raise DatabaseError, s)
    else (Return q,
          {| questions := questions s ++ [q];
             categories := categories s;
             question_id_seq := question_id_seq s + 1 |}).

(** Modelled from the spec: [Question.delete] of models.py, which is not
    among the sources; the record is removed from the table. *)
Definition Question_delete (q : Question.t) : M unit :=
  fun s =>
    if delete_raises s q then (Raise DatabaseError, s)
    else (Return tt,
          {| questions :=
               filter (fun x => negb (Question.id x =? Question.id q)) (questions s);
             categories := categories s;
             question_id_seq := question_id_seq s |}).

End Persistence.

(** ** Requests and responses *)

Module QuizCategory.
Record t := mk { id : Z; type : string }.
End QuizCategory.

(** The JSON object of a request body, by key; [None] is an absent key or a
    JSON null, which [body.get(key)] does not tell apart. The type holds the
    bodies of the documented shape: an object whose fields have the types of
    the API, with a [quiz_category] that carries its [id]. A body that is not
    an object, a [quiz_category] without [id] or a field of another type
    makes the handler raise outside any [try]; such requests are not values
    of this type and no statement below speaks about them. *)
Module Body.
Record t := mk
  { searchTerm : option string;
    question : option string;
    answer : option string;
    category : option Z;
    difficulty : option Z;
    previous_questions : option (list Z);
    quiz_category : option QuizCategory.t }.
Definition empty : t := mk None None None None None None None.
End Body.

Record Request := mkRequest
  { args : list (string * string);   (* the query string, in order *)
    get_json : Body.t }.

(** [request.args.get(key, default, type=int)]: the first value of the key,
    converted; the default when the key is absent or the conversion raises
    [ValueError]. *)
Fixpoint args_lookup (key : string) (a : list (string * string)) : option string :=
  match a with
  | [] => None
  | (k, v) :: a' => if String.eqb k key then Some v else args_lookup key a'
  end.

Definition args_get_int (a : list (string * string)) (key : string) (default : Z) : Z :=
  match args_lookup key a with
  | None => default
  | Some v =>
      match Py.int v with
      | Some z => z
      | None => default
      end
  end.

(** The values a response carries, and the response object as [jsonify]
    receives it: keys in the order of the source. *)
Inductive value : Type :=
| VBool (b : bool)
| VInt (z : Z)
| VStr (s : string)
| VQuestion (q : Formatted)
| VQuestions (l : list Formatted)
| VDict (d : list (Z * string)).

Definition Json : Type := list (string * value).

Fixpoint json_get (key : string) (j : Json) : option value :=
  match j with
  | [] => None
  | (k, v) :: j' => if String.eqb k key then Some v else json_get key j'
  end.

(** What the client receives: a JSON body with a status, or the framework's
    own error page for an exception no handler is registered for. *)
Inductive Response : Type :=
| JsonResponse (body : Json) (status : Z)
| DefaultError (status : Z).

(** [{cat.id: cat.type for cat in categories}] *)
Fixpoint dict_set (k : Z) (v : string) (d : list (Z * string)) : list (Z * string) :=
  match d with
  | [] => [(k, v)]
  | (k', v') :: d' => if k' =? k then (k', v) :: d' else (k', v') :: dict_set k v d'
  end.

Definition cat_dict_of (cats : list Category.t) : list (Z * string) :=
  fold_left (fun d cat => dict_set (Category.id cat) (Category.type cat) d) cats [].

(** ** The pagination helper *)

Definition QUESTIONS_PER_PAGE : Z := 10.

Definition paginate_questions (request : Request) (selection : list Question.t)
    (page_num : Z) : list Formatted :=
  let page := args_get_int (args request) "page" page_num in
  let start := (page - 1) * QUESTIONS_PER_PAGE in
  let end_ := start + QUESTIONS_PER_PAGE in
  let questions := map format selection in
  let current_questions := Py.slice questions start end_ in
  current_questions.

Definition len {A} (l : list A) : Z := Z.of_nat (List.length l).

(** [item is None] *)
Definition is_None {A} (item : option A) : bool :=
  match item with
  | None => true
  | Some _ => false
  end.

(** The truth value of [body.get('searchTerm', None)]: a non-empty string. *)
Definition truthy (search : option string) : bool :=
  match search with
  | None => false
  | Some s => negb (String.eqb s "")
  end.

(** ['{}'.format(search)] *)
Definition str_of (search : option string) : string :=
  match search with
  | Some s => s
  | None => "None"
  end.

(** [random.choice(seq)]: the element at a drawn index below [len(seq)];
    [rnd] is the draw of the generator. *)
Definition random_choice {A} (rnd : nat) (seq : list A) : M A :=
  match nth_error seq (rnd mod List.length seq) with
  | Some x => ret x
  | None => raise IndexError
  end.

(** ** The error handlers and the dispatch of a handler's outcome *)

Definition bad_request : Response :=
  JsonResponse [("success", VBool false); ("error", VInt 400);
                ("message", VStr "bad request")] 400.

Definition not_found : Response :=
  JsonResponse [("success", VBool false); ("error", VInt 404);
                ("message", VStr "resource not found")] 404.

Definition not_allowed : Response :=
  JsonResponse [("success", VBool false); ("error", VInt 405);
                ("message", VStr "method not allowed")] 405.

Definition unprocessable : Response :=
  JsonResponse [("success", VBool false); ("error", VInt 422);
                ("message", VStr "unprocessable")] 422.

(** An [HTTPException] goes to the handler registered for its code, if any;
    every other exception is an internal server error. *)
Definition handle_exception (e : exn) : Response :=
  match e with
  | HTTPException code =>
      if code =? 400 then bad_request
      else if code =? 404 then not_found
      else if code =? 405 then not_allowed
      else if code =? 422 then unprocessable
      else DefaultError code
  | _ => DefaultError 500
  end.

Definition respond (r : result Json) : Response :=
  match r with
  | Return body => JsonResponse body 200
  | Raise e => handle_exception e
  end.

(** One request served on a storage: the response and the storage after. *)
Definition serve (handler : M Json) (s : Storage) : Response * Storage :=
  let (r, s') := handler s in (respond r, s').

(** ** The request handlers *)

Section Handlers.

Variable insert_raises : Storage -> Question.t -> bool.
Variable delete_raises : Storage -> Question.t -> bool.

(** [GET /categories] *)
Definition retrieve_categories : M Json :=
  categories <- (rows <- Category_query ;; ret (order_cat_by_id rows)) ;;
  let cat_dict := cat_dict_of categories in
  when (len cat_dict =? 0) (abort 404) ;;;
  ret [("success", VBool true); ("categories", VDict cat_dict)].

(** [GET /questions] *)
Definition retrieve_questions (request : Request) : M Json :=
  selection <- (rows <- Question_query ;; ret (order_by_id rows)) ;;
  let current_questions := paginate_questions request selection 1 in
  categories <- (rows <- Category_query ;; ret (order_cat_by_id rows)) ;;
  let cat_dict := cat_dict_of categories in
  when (len current_questions =? 0) (abort 404) ;;;
  ret [("success", VBool true);
       ("questions", VQuestions current_questions);
       ("total_questions", VInt (len selection));
       ("categories", VDict cat_dict)].

(** [DELETE /questions/<int:question_id>] *)
Definition delete_question (request : Request) (question_id : Z) : M Json :=
  try_except
    (question <- (rows <- Question_query ;;
                  one_or_none (filter (fun q => Question.id q =? question_id) rows)) ;;
     match question with
     | None => abort 404
     | Some question =>
         Question_delete delete_raises question ;;;
         selection <- (rows <- Question_query ;; ret (order_by_id rows)) ;;
         let current_questions := paginate_questions request selection 1 in
         ret [("success", VBool true);
              ("deleted", VInt question_id);
              ("questions", VQuestions current_questions);
              ("total_questions", VInt (len selection))]
     end)
    (abort 422).

(** [POST /questions] *)
Definition create_search_question (request : Request) : M Json :=
  let body := get_json request in
  let search := Body.searchTerm body in
  if truthy search then
    let pattern := ("%" ++ str_of search ++ "%")%string in
    selection <- (rows <- Question_query ;;
                  ret (filter (fun q => Sql.ilike (Question.question q) pattern)
                              (order_by_id rows))) ;;
    when (len selection =? 0) (abort 404) ;;;
    let current_questions := paginate_questions request selection 1 in
    ret [("success", VBool true);
         ("questions", VQuestions current_questions);
         ("total_questions", VInt (len selection))]
  else
    try_except
      (let new_question := Body.question body in
       let new_answer := Body.answer body in
       let new_category := Body.category body in
       let new_difficulty := Body.difficulty body in
       when (is_None new_question || is_None new_answer ||
             is_None new_category || is_None new_difficulty) (abort 422) ;;;
       match new_question, new_answer, new_category, new_difficulty with
       | Some new_question, Some new_answer, Some new_category, Some new_difficulty =>
           question <- Question_insert insert_raises
                         new_question new_answer new_category new_difficulty ;;
           selection <- (rows <- Question_query ;; ret (order_by_id rows)) ;;
           let page_num := Py.ceil_div (len selection) 10 in
           let current_questions := paginate_questions request selection page_num in
           ret [("success", VBool true);
                ("created", VInt (Question.id question));
                ("questions", VQuestions current_questions);
                ("total_questions", VInt (len selection))]
       | _, _, _, _ => raise TypeError
       end)
      (abort 422).

(** [GET /categories/<int:category_id>/questions] *)
Definition retrieve_questions_by_selected_category (request : Request)
    (category_id : Z) : M Json :=
  category <- (rows <- Category_query ;;
               one_or_none (filter (fun c => Category.id c =? category_id) rows)) ;;
  match category with
  | None => abort 400
  | Some category =>
      selection <- (rows <- Question_query ;;
                    ret (filter (fun q => Question.category q =? Category.id category)
                                rows)) ;;
      let current_questions := paginate_questions request selection 1 in
      ret [("success", VBool true);
           ("questions", VQuestions current_questions);
           ("total_questions", VInt (len selection));
           ("current_category", VStr (Category.type category))]
  end.

(** [POST /quizzes]; [rnd] is the draw that [random.choice] makes. *)
Definition create_quiz_questions (rnd : nat) (request : Request) : M Json :=
  let body := get_json request in
  let previous_questions := Body.previous_questions body in
  let quiz_category := Body.quiz_category body in
  when (is_None quiz_category || is_None previous_questions) (abort 400) ;;;
  match quiz_category, previous_questions with
  | Some quiz_category, Some previous_questions =>
      let category_id := QuizCategory.id quiz_category in
      rows <- Question_query ;;
      let questions :=
        if category_id =? 0 then rows
        else filter (fun q => Question.category q =? QuizCategory.id quiz_category)
                    rows in
      let questions :=
        if negb (len previous_questions =? 0) then
          filter (fun q => negb (existsb (Z.eqb (Question.id q)) previous_questions))
                 questions
        else questions in
      if len questions =? 0 then ret [("success", VBool true)]
      else
        question <- random_choice rnd questions ;;
        ret [("success", VBool true); ("question", VQuestion (format question))]
  | _, _ => raise TypeError
  end.

End Handlers.

(** ** Notions the properties are stated with *)

(** The storage after a question is stored under the next id. *)
Definition stored (s : Storage) (q : Question.t) : Storage :=
  {| questions := questions s ++ [q];
     categories := categories s;
     question_id_seq := question_id_seq s + 1 |}.

(** The candidates of a quiz round: the questions of the category, or all of
    them for category 0, without the ones already asked. *)
Definition quiz_pool (category_id : Z) (previous_questions : list Z)
    (rows : list Question.t) : list Question.t :=
  filter (fun q => negb (existsb (Z.eqb (Question.id q)) previous_questions))
         (if category_id =? 0 then rows
          else filter (fun q => Question.category q =? category_id) rows).

(** The characters that [LIKE] does not read literally. *)
Definition is_wildcard (c : ascii) : bool :=
  Ascii.eqb c "%"%char || Ascii.eqb c "_"%char || Ascii.eqb c "\"%char.

Definition wildcard_free (s : list ascii) : bool :=
  forallb (fun c => negb (is_wildcard c)) s.

Fixpoint prefixb (p t : list ascii) : bool :=
  match p, t with
  | [], _ => true
  | _ :: _, [] => false
  | a :: p', b :: t' => Ascii.eqb a b && prefixb p' t'
  end.

(** [p] occurs in [t] as a run of consecutive characters. *)
Fixpoint infixb (p t : list ascii) : bool :=
  prefixb p t ||
  match t with
  | [] => false
  | _ :: t' => infixb p t'
  end.

(** [text] contains [term], upper and lower case letters taken as equal. *)
Definition icontains (term text : string) : Prop :=
  exists pre post,
    Py.lower (list_ascii_of_string text)
    = pre ++ Py.lower (list_ascii_of_string term) ++ post.

(** The storage after the questions of a given id are removed. *)
Definition removed (s : Storage) (question_id : Z) : Storage :=
  {| questions := filter (fun x => negb (Question.id x =? question_id)) (questions s);
     categories := categories s;
     question_id_seq := question_id_seq s |}.

(** A response with a JSON body whose status is one of [allowed], whose
    [success] tells whether the status is 200, and whose [error], on a
    failure, repeats the status. *)
Definition answered_with (allowed : list Z) (r : Response) : Prop :=
  exists body status,
    r = JsonResponse body status
    /\ In status allowed
    /\ json_get "success" body = Some (VBool (status =? 200))
    /\ (status <> 200 -> json_get "error" body = Some (VInt status)).

(** The ids of a list of formatted questions never decrease. *)
Definition ascending_ids (l : list Formatted) : Prop :=
  StronglySorted Z.le (map f_id l).

(** The grammar of the integer literals of base 10, stated without the
    parser: blanks, an optional sign, a group of digits, any number of
    further groups each behind one underscore, blanks. *)
Definition digit_of (c : ascii) : option Z :=
  if Ascii.eqb c "0"%char then Some 0
  else if Ascii.eqb c "1"%char then Some 1
  else if Ascii.eqb c "2"%char then Some 2
  else if Ascii.eqb c "3"%char then Some 3
  else if Ascii.eqb c "4"%char then Some 4
  else if Ascii.eqb c "5"%char then Some 5
  else if Ascii.eqb c "6"%char then Some 6
  else if Ascii.eqb c "7"%char then Some 7
  else if Ascii.eqb c "8"%char then Some 8
  else if Ascii.eqb c "9"%char then Some 9
  else None.

Definition is_digit (c : ascii) : bool :=
  match digit_of c with
  | Some _ => true
  | None => false
  end.

Definition is_blank (c : ascii) : bool :=
  existsb (Ascii.eqb c)
    [" "%char; "009"%char; "010"%char; "011"%char; "012"%char; "013"%char].

(** The number that a run of digits denotes after the digits read so far
    gave [acc]. *)
Definition digits_value (acc : Z) (ds : list ascii) : Z :=
  fold_left (fun a c => 10 * a + match digit_of c with Some d => d | None => 0 end)
            ds acc.

Definition digit_group (g : list ascii) : Prop :=
  g <> [] /\ Forall (fun c => is_digit c = true) g.

(** The groups that follow the first, each behind its underscore. *)
Definition underscored (more : list (list ascii)) : list ascii :=
  List.concat (map (cons "_"%char) more).

Definition int_literal (v : string) (z : Z) : Prop :=
  exists ws1 sign first more ws2,
    list_ascii_of_string v = ws1 ++ sign ++ first ++ underscored more ++ ws2
    /\ Forall (fun c => is_blank c = true) ws1
    /\ Forall (fun c => is_blank c = true) ws2
    /\ digit_group first
    /\ Forall digit_group more
    /\ ((sign = [] /\ z = digits_value 0 (first ++ List.concat more))
        \/ (sign = ["+"%char] /\ z = digits_value 0 (first ++ List.concat more))
        \/ (sign = ["-"%char] /\ z = - digits_value 0 (first ++ List.concat more))).

(** ** Sample data used by the examples *)

Definition never_raises : Storage -> Question.t -> bool := fun _ _ => false.

Definition sample_question (i : Z) : Question.t :=
  Question.mk i "Which planet is nearest the sun?" "Mercury" (1 + i mod 2) 2.

(** Questions numbered [1 .. n], in id order. *)
Definition sample_rows (n : nat) : list Question.t :=
  map (fun k => sample_question (Z.of_nat k)) (seq 1 n).

Definition sample_categories : list Category.t :=
  [Category.mk 1 "Science"; Category.mk 2 "Art"].

Definition sample_storage (n : nat) : Storage :=
  mkStorage (sample_rows n) sample_categories (Z.of_nat n + 1).

Definition page_query (v : string) : Request :=
  mkRequest [("page", v)] Body.empty.

Definition create_body (q a : option string) (c d : option Z) : Body.t :=
  Body.mk None q a c d None None.

Definition quiz_body (previous_questions : option (list Z))
    (quiz_category : option QuizCategory.t) : Body.t :=
  Body.mk None None None None None previous_questions quiz_category.

Definition search_body (term : string) : Body.t :=
  Body.mk (Some term) None None None None None None.

(** The page numbers [1 .. m]. *)
Definition page_numbers (m : Z) : list Z :=
  map Z.of_nat (seq 1 (Z.to_nat m)).

(** The list a response carries under the key [questions]. *)
Definition questions_of (r : Response) : option (list Formatted) :=
  match r with
  | JsonResponse body _ =>
      match json_get "questions" body with
      | Some (VQuestions l) => Some l
      | _ => None
      end
  | DefaultError _ => None
  end.

Definition status_of (r : Response) : Z :=
  match r with
  | JsonResponse _ status => status
  | DefaultError status => status
  end.

(** * Properties *)

Example int_examples :
  Py.int "12" = Some 12 /\ Py.int " -7 " = Some (-7) /\ Py.int "1_000" = Some 1000 /\
  Py.int "abc" = None /\ Py.int "" = None /\ Py.int "1__0" = None /\
  Py.int "1.5" = None /\ Py.int "+" = None /\ Py.int "007" = Some 7.
Proof. repeat split; reflexivity. Qed.

Example int_rejects_other_blanks :
  Py.int (String "028"%char "2") = None /\ Py.int (String "031"%char "0") = None /\
  Py.int (String "009"%char "2") = Some 2 /\ Py.int "3 " = Some 3 /\
  Py.int "1_" = None /\ Py.int "_1" = None /\ Py.int "- 1" = None /\
  Py.int "1abc" = None.
Proof. repeat split; reflexivity. Qed.

Example slice_examples :
  Py.slice [1;2;3;4;5] 1 3 = [2;3] /\ Py.slice [1;2;3;4;5] (-2) 0 = [] /\
  Py.slice [1;2;3;4;5] (-4) (-2) = [2;3] /\ Py.slice [1;2;3;4;5] 7 17 = [] /\
  Py.slice [1;2;3;4;5] (-20) (-3) = [1;2].
Proof. repeat split; reflexivity. Qed.

(** ** The integers that [int] reads *)

Lemma digit_value_of c : Py.digit_value c = digit_of c.
Proof. destruct c as [[] [] [] [] [] [] [] []]; reflexivity. Qed.

Lemma isspace_blank c : Py.isspace c = is_blank c.
Proof. destruct c as [[] [] [] [] [] [] [] []]; reflexivity. Qed.

Lemma digit_not_blank c : is_digit c = true -> is_blank c = false.
Proof. destruct c as [[] [] [] [] [] [] [] []]; (discriminate || reflexivity). Qed.

Lemma digit_not_sign c :
  is_digit c = true ->
  Ascii.eqb c "-"%char = false /\ Ascii.eqb c "+"%char = false
  /\ Ascii.eqb c "_"%char = false.
Proof.
  destruct c as [[] [] [] [] [] [] [] []]; (discriminate || (repeat split; reflexivity)).
Qed.

Lemma is_digit_value c : is_digit c = true -> exists d, digit_of c = Some d.
Proof. unfold is_digit. destruct (digit_of c) as [d|]; [now exists d | discriminate]. Qed.

Lemma digits_value_cons acc c ds d :
  digit_of c = Some d ->
  digits_value acc (c :: ds) = digits_value (10 * acc + d) ds.
Proof. intros H. unfold digits_value. cbn [fold_left]. now rewrite H. Qed.

Lemma digits_value_app acc ds1 ds2 :
  digits_value acc (ds1 ++ ds2) = digits_value (digits_value acc ds1) ds2.
Proof. unfold digits_value. apply fold_left_app. Qed.

(** Reading a run of digits. *)
Lemma int_digits_run acc g rest :
  Forall (fun c => is_digit c = true) g ->
  Py.int_digits acc (g ++ rest) = Py.int_digits (digits_value acc g) rest.
Proof.
  intros Hg. revert acc. induction Hg as [|c g Hc Hg IH]; intros acc; [reflexivity|].
  destruct (is_digit_value c Hc) as [d Hd].
  cbn [app Py.int_digits]. rewrite digit_value_of, Hd, IH.
  now rewrite (digits_value_cons acc c g d Hd).
Qed.

(** Reading the groups behind their underscores. *)
Lemma int_digits_underscored acc more :
  Forall digit_group more ->
  Py.int_digits acc (underscored more) = Some (digits_value acc (List.concat more)).
Proof.
  intros Hmore. revert acc. induction Hmore as [|g more [Hne Hg] Hmore IH]; intros acc.
  - reflexivity.
  - destruct g as [|c g]; [contradiction|].
    inversion Hg as [|? ? Hc Hg']; subst.
    destruct (is_digit_value c Hc) as [d Hd].
    unfold underscored. cbn [map List.concat app].
    fold (underscored more). cbn [Py.int_digits].
    rewrite digit_value_of. change (digit_of "_"%char) with (@None Z).
    change (Ascii.eqb "_"%char "_"%char) with true. cbv iota.
    rewrite digit_value_of, Hd, int_digits_run, IH by assumption.
    cbn [List.concat app].
    now rewrite (digits_value_cons acc c _ d Hd), digits_value_app.
Qed.

Lemma int_unsigned_literal first more :
  digit_group first -> Forall digit_group more ->
  Py.int_unsigned (first ++ underscored more)
  = Some (digits_value 0 (first ++ List.concat more)).
Proof.
  intros [Hne Hfirst] Hmore. destruct first as [|c first]; [contradiction|].
  inversion Hfirst as [|? ? Hc Hfirst']; subst.
  destruct (is_digit_value c Hc) as [d Hd].
  cbn [app Py.int_unsigned]. rewrite digit_value_of, Hd.
  rewrite int_digits_run, int_digits_underscored by assumption.
  rewrite (digits_value_cons 0 c _ d Hd), digits_value_app. reflexivity.
Qed.

(** What the reader of digits accepts is a run of digits followed by groups
    behind underscores. *)
Lemma int_digits_inv n : forall s acc z,
  (List.length s <= n)%nat ->
  Py.int_digits acc s = Some z ->
  exists g more,
    s = g ++ underscored more
    /\ Forall (fun c => is_digit c = true) g
    /\ Forall digit_group more
    /\ z = digits_value acc (g ++ List.concat more).
Proof.
  induction n as [|n IH]; intros s acc z Hlen Hread.
  - destruct s; [|cbn in Hlen; lia]. cbn in Hread. injection Hread as <-.
    exists [], []. repeat split; constructor.
  - destruct s as [|c s]; cbn [Py.int_digits] in Hread.
    + injection Hread as <-. exists [], []. repeat split; constructor.
    + rewrite digit_value_of in Hread.
      destruct (digit_of c) as [d|] eqn:Hd.
      * apply IH in Hread; [|cbn in Hlen; lia].
        destruct Hread as (g & more & -> & Hg & Hmore & ->).
        exists (c :: g), more. repeat split; trivial.
        -- constructor; [unfold is_digit; now rewrite Hd | assumption].
        -- cbn [app]. now rewrite (digits_value_cons acc c _ d Hd).
      * destruct (Ascii.eqb_spec c "_"%char) as [-> | _]; [|discriminate].
        destruct s as [|c' s]; [discriminate|].
        rewrite digit_value_of in Hread.
        destruct (digit_of c') as [d|] eqn:Hd'; [|discriminate].
        apply IH in Hread; [|cbn in Hlen; lia].
        destruct Hread as (g & more & -> & Hg & Hmore & ->).
        assert (Hc' : is_digit c' = true) by (unfold is_digit; now rewrite Hd').
        exists [], ((c' :: g) :: more).
        split; [reflexivity|]. split; [constructor|]. split.
        -- constructor; [|assumption]. split; [discriminate | now constructor].
        -- cbn [app List.concat].
           now rewrite (digits_value_cons acc c' _ d Hd').
Qed.

Lemma int_unsigned_inv s z :
  Py.int_unsigned s = Some z ->
  exists first more,
    s = first ++ underscored more
    /\ digit_group first /\ Forall digit_group more
    /\ z = digits_value 0 (first ++ List.concat more).
Proof.
  destruct s as [|c s]; [discriminate|]. cbn [Py.int_unsigned].
  rewrite digit_value_of. destruct (digit_of c) as [d|] eqn:Hd; [|discriminate].
  intros Hread. apply (int_digits_inv (List.length s)) in Hread; [|lia].
  destruct Hread as (g & more & -> & Hg & Hmore & ->).
  exists (c :: g), more. repeat split; trivial.
  - discriminate.
  - constructor; [unfold is_digit; now rewrite Hd | assumption].
  - cbn [app]. now rewrite (digits_value_cons 0 c _ d Hd).
Qed.

Lemma lstrip_blanks s :
  exists ws, s = ws ++ Py.lstrip s /\ Forall (fun c => is_blank c = true) ws.
Proof.
  induction s as [|c s (ws & Hs & Hws)]; [now exists []|].
  cbn [Py.lstrip]. destruct (Py.isspace c) eqn:Hc.
  - exists (c :: ws). split; [cbn; now rewrite <- Hs|].
    constructor; [now rewrite <- isspace_blank | assumption].
  - now exists [].
Qed.

Lemma lstrip_skip ws c t :
  Forall (fun c => is_blank c = true) ws ->
  is_blank c = false ->
  Py.lstrip (ws ++ c :: t) = c :: t.
Proof.
  intros Hws Hc. induction Hws as [|w ws Hw Hws IH]; cbn [app Py.lstrip].
  - now rewrite isspace_blank, Hc.
  - now rewrite isspace_blank, Hw.
Qed.

Lemma strip_inv s :
  exists ws1 ws2,
    s = ws1 ++ Py.strip s ++ ws2
    /\ Forall (fun c => is_blank c = true) ws1
    /\ Forall (fun c => is_blank c = true) ws2.
Proof.
  unfold Py.strip.
  destruct (lstrip_blanks s) as (ws1 & Hs & Hws1).
  destruct (lstrip_blanks (rev (Py.lstrip s))) as (w & Hr & Hw).
  exists ws1, (rev w). split; [|split; [assumption | now apply Forall_rev]].
  rewrite <- rev_app_distr, <- Hr, rev_involutive. exact Hs.
Qed.

Lemma strip_core ws1 ws2 c tl init d :
  Forall (fun c => is_blank c = true) ws1 ->
  Forall (fun c => is_blank c = true) ws2 ->
  c :: tl = init ++ [d] ->
  is_blank c = false ->
  is_blank d = false ->
  Py.strip (ws1 ++ (c :: tl) ++ ws2) = c :: tl.
Proof.
  intros Hws1 Hws2 Hcore Hc Hd. unfold Py.strip.
  cbn [app]. rewrite lstrip_skip by assumption.
  change (c :: tl ++ ws2) with ((c :: tl) ++ ws2).
  rewrite rev_app_distr, Hcore, rev_app_distr. cbn [rev app].
  rewrite lstrip_skip by (trivial; now apply Forall_rev).
  change (d :: rev init) with (rev [d] ++ rev init).
  now rewrite <- rev_app_distr, rev_involutive.
Qed.

Lemma group_ends_digit g :
  digit_group g -> exists init d, g = init ++ [d] /\ is_digit d = true.
Proof.
  intros [Hne Hg]. destruct (exists_last Hne) as (init & d & ->).
  exists init, d. split; [reflexivity|].
  apply Forall_app in Hg. destruct Hg as [_ Hd]. now inversion Hd.
Qed.

Lemma underscored_ends_digit more : forall pre,
  Forall digit_group more ->
  (exists init d, pre = init ++ [d] /\ is_digit d = true) ->
  exists init d, pre ++ underscored more = init ++ [d] /\ is_digit d = true.
Proof.
  induction more as [|g more IH]; intros pre Hmore Hpre.
  - unfold underscored. cbn. now rewrite app_nil_r.
  - inversion Hmore as [|? ? Hg Hmore']; subst.
    destruct (group_ends_digit g Hg) as (init & d & -> & Hd).
    unfold underscored. cbn [map List.concat]. fold (underscored more).
    replace (pre ++ ("_"%char :: init ++ [d]) ++ underscored more)
      with ((pre ++ "_"%char :: init ++ [d]) ++ underscored more)
      by now rewrite <- app_assoc.
    apply IH; [assumption|].
    exists (pre ++ "_"%char :: init), d. split; [|assumption].
    now rewrite <- app_assoc.
Qed.

(** [int] reads exactly the literals of the grammar, and reads each as the
    number it denotes. *)
Lemma int_spec v z : Py.int v = Some z <-> int_literal v z.
Proof.
  unfold Py.int, int_literal. split.
  - intros Hread.
    destruct (strip_inv (list_ascii_of_string v)) as (ws1 & ws2 & Hv & Hws1 & Hws2).
    destruct (Py.strip (list_ascii_of_string v)) as [|c s]; [discriminate|].
    destruct (Ascii.eqb_spec c "-"%char) as [-> | Hminus].
    + destruct (Py.int_unsigned s) as [m|] eqn:Hm; [|discriminate].
      cbn in Hread. injection Hread as <-.
      apply int_unsigned_inv in Hm.
      destruct Hm as (first & more & -> & Hfirst & Hmore & ->).
      exists ws1, ["-"%char], first, more, ws2.
      split; [rewrite Hv; cbn [app]; now rewrite <- ?app_assoc|]. repeat (split; [assumption|]).
      right. right. now split.
    + destruct (Ascii.eqb_spec c "+"%char) as [-> | Hplus].
      * apply int_unsigned_inv in Hread.
        destruct Hread as (first & more & -> & Hfirst & Hmore & ->).
        exists ws1, ["+"%char], first, more, ws2.
        split; [rewrite Hv; cbn [app]; now rewrite <- ?app_assoc|]. repeat (split; [assumption|]).
        right. left. now split.
      * apply int_unsigned_inv in Hread.
        destruct Hread as (first & more & Hcore & Hfirst & Hmore & ->).
        exists ws1, [], first, more, ws2.
        split; [rewrite Hv, Hcore; cbn [app]; now rewrite <- ?app_assoc|]. repeat (split; [assumption|]).
        left. now split.
  - intros (ws1 & sign & first & more & ws2 & Hv & Hws1 & Hws2 & Hfirst & Hmore & Hsign).
    destruct (underscored_ends_digit more first Hmore (group_ends_digit first Hfirst))
      as (init & d & Hends & Hd).
    pose proof (int_unsigned_literal first more Hfirst Hmore) as Hread.
    assert (Hfirst' := Hfirst). destruct Hfirst' as [Hne Hdigits].
    destruct first as [|c first]; [contradiction|].
    inversion Hdigits as [|? ? Hc _]; subst.
    destruct (digit_not_sign c Hc) as (Hminus & Hplus & _).
    rewrite Hv.
    replace (ws1 ++ sign ++ (c :: first) ++ underscored more ++ ws2)
      with (ws1 ++ (sign ++ (c :: first) ++ underscored more) ++ ws2)
      by now rewrite <- !app_assoc.
    assert (Hstrip : Py.strip (ws1 ++ (sign ++ (c :: first) ++ underscored more) ++ ws2)
                     = sign ++ (c :: first) ++ underscored more).
    { destruct Hsign as [[-> _] | [[-> _] | [-> _]]].
      - apply (strip_core ws1 ws2 c (first ++ underscored more) init d); trivial;
          now apply digit_not_blank.
      - apply (strip_core ws1 ws2 "+"%char ((c :: first) ++ underscored more)
                 ("+"%char :: init) d); trivial;
          [cbn [app]; now rewrite <- Hends | now apply digit_not_blank].
      - apply (strip_core ws1 ws2 "-"%char ((c :: first) ++ underscored more)
                 ("-"%char :: init) d); trivial;
          [cbn [app]; now rewrite <- Hends | now apply digit_not_blank]. }
    rewrite Hstrip.
    destruct Hsign as [[-> ->] | [[-> ->] | [-> ->]]]; cbn [app].
    + rewrite Hminus, Hplus. exact Hread.
    + exact Hread.
    + cbn [app] in Hread. now rewrite Hread.
Qed.

(** ** Slices and pages *)

Section SliceFacts.

Context {A : Type}.
Implicit Types l : list A.

(** A slice with a start that is not negative is a [firstn] of a [skipn]. *)
Lemma slice_from_offset l (a k : Z) :
  0 <= a -> 0 <= k ->
  Py.slice l a (a + k) = firstn (Z.to_nat k) (skipn (Z.to_nat a) l).
Proof.
  intros Ha Hk. unfold Py.slice, Py.adjust_index.
  set (n := Z.of_nat (List.length l)).
  assert (Hn : List.length l = Z.to_nat n) by (subst n; lia).
  destruct (Z.ltb_spec a 0); [lia|].
  destruct (Z.ltb_spec (a + k) 0); [lia|].
  destruct (Z.leb_spec n a).
  - destruct (Z.leb_spec n (a + k)); [|lia].
    rewrite !skipn_all2 by lia. now rewrite !firstn_nil.
  - destruct (Z.leb_spec n (a + k)).
    + rewrite !firstn_all2; trivial; rewrite length_skipn; lia.
    + f_equal. lia.
Qed.

Lemma slice_length_le l (a b : Z) :
  0 <= b -> (List.length (Py.slice l a (a + b)) <= Z.to_nat b)%nat.
Proof.
  intros Hb. unfold Py.slice, Py.adjust_index. rewrite length_firstn.
  set (n := Z.of_nat (List.length l)).
  assert (0 <= n) by (subst n; lia).
  apply Nat.le_trans with (1 := Nat.le_min_l _ _).
  repeat match goal with
         | |- context [Z.ltb ?x ?y] => destruct (Z.ltb_spec x y)
         | |- context [Z.leb ?x ?y] => destruct (Z.leb_spec x y)
         end; lia.
Qed.

(** A slice that stops at index 0 is empty, wherever it starts. *)
Lemma slice_stop_0 l (a : Z) : Py.slice l a 0 = [].
Proof.
  unfold Py.slice, Py.adjust_index.
  set (n := Z.of_nat (List.length l)).
  assert (0 <= n) by (subst n; lia).
  replace (if n <=? 0 then n else 0) with 0 by (destruct (Z.leb_spec n 0); lia).
  cbn [Z.ltb Z.compare].
  match goal with |- firstn (Z.to_nat (0 - ?x)) _ = _ =>
    assert (Hx : 0 <= x) end.
  { destruct (Z.ltb_spec a 0).
    - destruct (Z.ltb_spec (a + n) 0); lia.
    - destruct (Z.leb_spec n a); lia. }
  replace (Z.to_nat (0 - _)) with 0%nat by lia. reflexivity.
Qed.

Lemma firstn_add l (a b : nat) :
  firstn (a + b) l = firstn a l ++ firstn b (skipn a l).
Proof.
  revert l; induction a as [|a IH]; intros l; cbn; trivial.
  destruct l; cbn; [now rewrite firstn_nil | now rewrite IH].
Qed.

(** The chunks of size [k] numbered [1 .. m], one after the other, are the
    first [k * m] elements. *)
Lemma chunks_concat l (k m : nat) :
  List.concat (map (fun p => firstn k (skipn ((p - 1) * k) l)) (seq 1 m))
  = firstn (m * k) l.
Proof.
  induction m as [|m IH]; cbn [Nat.mul]; trivial.
  rewrite seq_S, map_app, concat_app, IH. cbn [map List.concat].
  rewrite app_nil_r, (Nat.add_comm k), firstn_add.
  do 3 f_equal. lia.
Qed.

End SliceFacts.

Lemma ceil_div_10_bounds (n : Z) :
  0 <= n -> n <= 10 * Py.ceil_div n 10 < n + 10.
Proof.
  intros Hn. unfold Py.ceil_div.
  pose proof (Z.div_mod (n + 10 - 1) 10 ltac:(lia)).
  pose proof (Z.mod_pos_bound (n + 10 - 1) 10 ltac:(lia)). lia.
Qed.

(** What [paginate_questions] slices, by the page it read. *)
Lemma paginate_questions_slice request selection page_num :
  let p := args_get_int (args request) "page" page_num in
  paginate_questions request selection page_num
  = Py.slice (map format selection) ((p - 1) * 10) ((p - 1) * 10 + 10).
Proof. reflexivity. Qed.

Lemma paginate_questions_page request selection page_num :
  1 <= args_get_int (args request) "page" page_num ->
  paginate_questions request selection page_num
  = firstn 10 (skipn (Z.to_nat ((args_get_int (args request) "page" page_num - 1) * 10))
                     (map format selection)).
Proof.
  intros Hp. rewrite paginate_questions_slice. cbv zeta.
  rewrite slice_from_offset by lia. reflexivity.
Qed.

Lemma paginate_questions_length request selection page_num :
  (List.length (paginate_questions request selection page_num) <= 10)%nat.
Proof.
  rewrite paginate_questions_slice. cbv zeta.
  apply (slice_length_le (map format selection) _ 10). lia.
Qed.

Lemma len_map_format selection : len (map format selection) = len selection.
Proof. unfold len. now rewrite length_map. Qed.

(** C2: for a page number [p >= 1] (the [page] query parameter, or the
    default when the parameter is absent or is not an integer literal),
    [paginate_questions] returns the formatted records at offset
    [(p-1)*10], at most 10 of them, and the empty list, without raising,
    when the offset is past the last record. The values taken as a page
    number are the integer literals of the grammar [int_literal], read as
    the number they denote; every other value is coerced to the default. *)
Theorem paginate_questions_returns_page request selection page_num p :
  args_get_int (args request) "page" page_num = p ->
  1 <= p ->
  paginate_questions request selection page_num
    = firstn 10 (skipn (Z.to_nat ((p - 1) * 10)) (map format selection))
  /\ (List.length (paginate_questions request selection page_num) <= 10)%nat
  /\ (len selection <= (p - 1) * 10 ->
      paginate_questions request selection page_num = [])
  /\ (args_lookup "page" (args request) = None -> p = page_num)
  /\ (forall v, args_lookup "page" (args request) = Some v ->
                Py.int v = None -> p = page_num)
  /\ (forall v z, args_lookup "page" (args request) = Some v ->
                  Py.int v = Some z -> p = z)
  /\ (forall v, args_lookup "page" (args request) = Some v ->
        (forall z, int_literal v z -> p = z)
        /\ ((forall z, ~ int_literal v z) -> p = page_num)).
Proof.
  intros Hp Hge.
  assert (Hpage : paginate_questions request selection page_num
            = firstn 10 (skipn (Z.to_nat ((p - 1) * 10)) (map format selection))).
  { rewrite paginate_questions_page by lia. now rewrite Hp. }
  split; [exact Hpage|].
  split; [apply paginate_questions_length|].
  split.
  { intros Hpast. rewrite Hpage, skipn_all2; [apply firstn_nil|].
    rewrite length_map. unfold len in Hpast. lia. }
  unfold args_get_int in Hp.
  repeat apply conj.
  - intros H. now rewrite H in Hp.
  - intros v H Hv. now rewrite H, Hv in Hp.
  - intros v z H Hv. now rewrite H, Hv in Hp.
  - intros v H. rewrite H in Hp. split.
    + intros z Hz. apply int_spec in Hz. now rewrite Hz in Hp.
    + intros Hnone.
      destruct (Py.int v) as [z|] eqn:Hz; [|exact (eq_sym Hp)].
      apply int_spec in Hz. now apply Hnone in Hz.
Qed.

Lemma paginate_questions_returns_page_witness :
  paginate_questions (page_query "2") (sample_rows 12) 1
  = map format [sample_question 11; sample_question 12].
Proof.
  destruct (paginate_questions_returns_page (page_query "2") (sample_rows 12) 1 2
              eq_refl ltac:(lia)) as [H _].
  rewrite H. reflexivity.
Defined.

Lemma in_page_numbers (m p : Z) : In p (page_numbers m) <-> 1 <= p <= m.
Proof.
  unfold page_numbers. rewrite in_map_iff. split.
  - intros (k & <- & Hk). apply in_seq in Hk. lia.
  - intros Hp. exists (Z.to_nat p). split; [lia|]. apply in_seq. lia.
Qed.

(** The pages [1 .. ceil(n/10)] of a selection, one after the other, are the
    whole formatted selection. *)
Lemma pages_concat (request_for : Z -> Request) selection :
  (forall p, 1 <= p <= Py.ceil_div (len selection) 10 ->
             args_get_int (args (request_for p)) "page" 1 = p) ->
  List.concat (map (fun p => paginate_questions (request_for p) selection 1)
                   (page_numbers (Py.ceil_div (len selection) 10)))
  = map format selection.
Proof.
  intros Hreq. unfold page_numbers. rewrite map_map.
  set (m := Z.to_nat (Py.ceil_div (len selection) 10)).
  pose proof (ceil_div_10_bounds (len selection) ltac:(unfold len; lia)) as Hb.
  rewrite map_ext_in with
    (g := fun k => firstn 10 (skipn ((k - 1) * 10) (map format selection))).
  - rewrite chunks_concat. apply firstn_all2.
    rewrite length_map. unfold len in *. lia.
  - intros k Hk. apply in_seq in Hk.
    assert (Hp : args_get_int (args (request_for (Z.of_nat k))) "page" 1 = Z.of_nat k)
      by (apply Hreq; lia).
    rewrite paginate_questions_page by lia. rewrite Hp. do 2 f_equal. lia.
Qed.

(** A page up to the last one is not empty. *)
Lemma page_nonempty request selection page_num :
  1 <= args_get_int (args request) "page" page_num
    <= Py.ceil_div (len selection) 10 ->
  (len (paginate_questions request selection page_num) =? 0) = false.
Proof.
  intros Hp.
  pose proof (ceil_div_10_bounds (len selection) ltac:(unfold len; lia)) as Hb.
  rewrite paginate_questions_page by lia.
  apply Z.eqb_neq. unfold len in *.
  rewrite length_firstn, length_skipn, length_map. lia.
Qed.

Lemma length_insert_by_id q l :
  List.length (insert_by_id q l) = S (List.length l).
Proof.
  induction l as [|x l IH]; cbn; trivial.
  destruct (Question.id q <=? Question.id x); cbn; now rewrite ?IH.
Qed.

Lemma length_order_by_id l : List.length (order_by_id l) = List.length l.
Proof.
  unfold order_by_id. induction l as [|x l IH]; cbn [fold_right]; trivial.
  rewrite length_insert_by_id. cbn. now rewrite IH.
Qed.

(** What [GET /questions] answers, by whether the page is empty. *)
Lemma retrieve_questions_run request s :
  let selection := order_by_id (questions s) in
  let current_questions := paginate_questions request selection 1 in
  serve (retrieve_questions request) s
  = (if len current_questions =? 0 then not_found
     else JsonResponse
            [("success", VBool true);
             ("questions", VQuestions current_questions);
             ("total_questions", VInt (len selection));
             ("categories", VDict (cat_dict_of (order_cat_by_id (categories s))))]
            200,
     s).
Proof.
  cbv zeta. unfold serve, retrieve_questions, bind, Question_query, Category_query,
    ret, when, abort, raise.
  destruct (len _ =? 0); reflexivity.
Qed.

(** C3: every page [p] with [1 <= p <= ceil(n/10)] of a list of [n]
    questions holds at most 10 questions, the pages [1 .. ceil(n/10)] one
    after the other are the whole ordered list (nothing twice, nothing
    left out), and [GET /questions?page=p] answers with exactly that page. *)
Theorem pages_reconstruct_questions (request_for : Z -> Request) selection :
  let last := Py.ceil_div (len selection) 10 in
  (forall p, 1 <= p <= last -> args_get_int (args (request_for p)) "page" 1 = p) ->
  (forall p, 1 <= p <= last ->
     (List.length (paginate_questions (request_for p) selection 1) <= 10)%nat)
  /\ List.concat (map (fun p => paginate_questions (request_for p) selection 1)
                      (page_numbers last))
     = map format selection
  /\ (forall s p, order_by_id (questions s) = selection -> 1 <= p <= last ->
        status_of (fst (serve (retrieve_questions (request_for p)) s)) = 200 /\
        questions_of (fst (serve (retrieve_questions (request_for p)) s))
        = Some (paginate_questions (request_for p) selection 1)).
Proof.
  intros last Hreq. split; [|split].
  - intros p _. apply paginate_questions_length.
  - now apply pages_concat.
  - intros s p Hsel Hp. rewrite retrieve_questions_run. cbv zeta.
    rewrite Hsel, page_nonempty by (rewrite Hreq; trivial). split; reflexivity.
Qed.

Lemma pages_reconstruct_questions_witness :
  let request_for p :=
    if p =? 1 then page_query "1" else if p =? 2 then page_query "2"
    else page_query "3" in
  List.concat (map (fun p => paginate_questions (request_for p) (sample_rows 25) 1)
                   (page_numbers 3))
  = map format (sample_rows 25).
Proof.
  intros request_for.
  refine (proj1 (proj2 (pages_reconstruct_questions request_for (sample_rows 25) _))).
  intros p Hp. change (1 <= p <= 3) in Hp.
  assert (Hcases : p = 1 \/ p = 2 \/ p = 3) by lia.
  destruct Hcases as [-> | [-> | ->]]; reflexivity.
Defined.

(** C10: when the [page] parameter is an integer [p <= 0] the helper takes
    the slice [questions[(p-1)*10 : (p-1)*10 + 10]] with Python's reading of
    negative bounds. For [p = 0] the slice is always empty, so
    [GET /questions?page=0] answers 404. For a negative [p] the bounds count
    from the end of the list and the slice need not be empty: with 20
    questions, [page=-1] returns the first 10. *)
Theorem paginate_questions_nonpositive_page request v p :
  args_lookup "page" (args request) = Some v ->
  Py.int v = Some p ->
  p <= 0 ->
  (forall selection page_num,
     paginate_questions request selection page_num
     = Py.slice (map format selection) ((p - 1) * 10) ((p - 1) * 10 + 10))
  /\ (p = 0 ->
      (forall selection page_num, paginate_questions request selection page_num = [])
      /\ (forall s, serve (retrieve_questions request) s = (not_found, s)))
  /\ (p = -1 ->
      forall selection, List.length selection = 20%nat ->
        paginate_questions request selection 1 = firstn 10 (map format selection)).
Proof.
  intros Hv Hp Hle.
  assert (Hget : forall d, args_get_int (args request) "page" d = p).
  { intros d. unfold args_get_int. now rewrite Hv, Hp. }
  assert (Hslice : forall selection page_num,
     paginate_questions request selection page_num
     = Py.slice (map format selection) ((p - 1) * 10) ((p - 1) * 10 + 10)).
  { intros. rewrite paginate_questions_slice. cbv zeta. now rewrite Hget. }
  split; [exact Hslice|]. split.
  - intros ->.
    assert (Hnil : forall selection page_num,
              paginate_questions request selection page_num = []).
    { intros. rewrite Hslice. apply slice_stop_0. }
    split; [exact Hnil|].
    intros s. rewrite retrieve_questions_run. cbv zeta. now rewrite Hnil.
  - intros -> selection Hlen. rewrite Hslice.
    unfold Py.slice, Py.adjust_index. rewrite length_map, Hlen. reflexivity.
Qed.

Lemma paginate_questions_nonpositive_page_witness :
  serve (retrieve_questions (page_query "0")) (sample_storage 20)
    = (not_found, sample_storage 20)
  /\ paginate_questions (page_query "-1") (sample_rows 20) 1
     = map format (sample_rows 10).
Proof.
  split.
  - apply (paginate_questions_nonpositive_page (page_query "0") "0" 0
             eq_refl eq_refl ltac:(lia)). reflexivity.
  - rewrite (proj2 (proj2 (paginate_questions_nonpositive_page
                             (page_query "-1") "-1" (-1) eq_refl eq_refl ltac:(lia)))
               eq_refl (sample_rows 20) eq_refl).
    reflexivity.
Defined.

(** ** Lookups by primary key *)

Lemma filter_none {A} (f : A -> bool) (l : list A) :
  (forall x, In x l -> f x = false) -> filter f l = [].
Proof.
  induction l as [|x l IH]; cbn; intros H; trivial.
  rewrite (H x) by now left. apply IH. intros y Hy. apply H. now right.
Qed.

Lemma filter_all {A} (f : A -> bool) (l : list A) :
  (forall x, In x l -> f x = true) -> filter f l = l.
Proof.
  induction l as [|x l IH]; cbn; intros H; trivial.
  rewrite (H x) by now left. f_equal. apply IH. intros y Hy. apply H. now right.
Qed.

(** With unique keys, the rows of a given key are the one row that has it. *)
Lemma filter_unique_key {A} (key : A -> Z) (l : list A) (x : A) :
  NoDup (map key l) -> In x l ->
  filter (fun y => key y =? key x) l = [x].
Proof.
  induction l as [|y l IH]; cbn; intros Hnd Hin; [contradiction|].
  inversion Hnd as [|? ? Hnotin Hnd']; subst.
  destruct Hin as [-> | Hin].
  - rewrite Z.eqb_refl. f_equal. apply filter_none.
    intros z Hz. apply Z.eqb_neq. intros Heq. apply Hnotin.
    rewrite <- Heq. now apply in_map.
  - destruct (Z.eqb_spec (key y) (key x)) as [Heq|_].
    + exfalso. apply Hnotin. rewrite Heq. now apply in_map.
    + now apply IH.
Qed.

Lemma slice_incl {A} (l : list A) (a b : Z) (x : A) :
  In x (Py.slice l a b) -> In x l.
Proof.
  unfold Py.slice. intros H.
  set (n := Z.to_nat (Py.adjust_index (Z.of_nat (List.length l)) a)) in *.
  rewrite <- (firstn_skipn n l). apply in_or_app. right.
  set (m := Z.to_nat _) in H.
  rewrite <- (firstn_skipn m (skipn n l)). apply in_or_app. now left.
Qed.

Section HandlerFacts.

Variable insert_raises : Storage -> Question.t -> bool.
Variable delete_raises : Storage -> Question.t -> bool.

(** C1: for an id that no stored question has, [delete_question] raises the
    404 inside its own [try] block, the bare [except] catches it, and the
    request is answered with the 422 envelope, not with the 404 one. *)
Theorem delete_question_missing_id request question_id s :
  (forall q, In q (questions s) -> Question.id q <> question_id) ->
  serve (delete_question delete_raises request question_id) s = (unprocessable, s)
  /\ unprocessable <> not_found.
Proof.
  intros Hmissing. split; [|discriminate].
  unfold serve, delete_question, try_except, bind, Question_query.
  rewrite filter_none; [reflexivity|].
  intros q Hq. apply Z.eqb_neq. now apply Hmissing.
Qed.

(** C6: [GET /categories/{id}/questions] answers 400 when no category has
    the id; when one has, it answers 200 with the questions of that category
    on the requested page (an empty page included), every one of them in
    that category, with their total count and the category's type. *)
Theorem retrieve_questions_by_selected_category_spec request category_id s :
  ((forall c, In c (categories s) -> Category.id c <> category_id) ->
   serve (retrieve_questions_by_selected_category request category_id) s
   = (bad_request, s))
  /\ (forall cat,
        NoDup (map Category.id (categories s)) ->
        In cat (categories s) ->
        Category.id cat = category_id ->
        let selection :=
          filter (fun q => Question.category q =? category_id) (questions s) in
        let current_questions := paginate_questions request selection 1 in
        serve (retrieve_questions_by_selected_category request category_id) s
        = (JsonResponse
             [("success", VBool true);
              ("questions", VQuestions current_questions);
              ("total_questions", VInt (len selection));
              ("current_category", VStr (Category.type cat))]
             200, s)
        /\ Forall (fun f => f_category f = category_id) current_questions).
Proof.
  split.
  - intros Hmissing.
    unfold serve, retrieve_questions_by_selected_category, bind, Category_query.
    rewrite filter_none; [reflexivity|].
    intros c Hc. apply Z.eqb_neq. now apply Hmissing.
  - intros cat Hnd Hin <-. cbv zeta. split.
    + unfold serve, retrieve_questions_by_selected_category, bind, Category_query.
      rewrite (filter_unique_key Category.id) by assumption. reflexivity.
    + apply Forall_forall. intros f Hf.
      rewrite paginate_questions_slice in Hf. apply slice_incl in Hf.
      apply in_map_iff in Hf. destruct Hf as (q & <- & Hq).
      apply filter_In in Hq. destruct Hq as [_ Hq]. cbn. now apply Z.eqb_eq.
Qed.

(** C8: a create request (no non-empty [searchTerm]) with one of the four
    required fields absent or null, or whose insert raises, is answered
    with the 422 envelope, and nothing is stored. *)
Theorem create_question_unprocessable request s :
  truthy (Body.searchTerm (get_json request)) = false ->
  (Body.question (get_json request) = None
   \/ Body.answer (get_json request) = None
   \/ Body.category (get_json request) = None
   \/ Body.difficulty (get_json request) = None
   \/ exists q a c d,
        Body.question (get_json request) = Some q
        /\ Body.answer (get_json request) = Some a
        /\ Body.category (get_json request) = Some c
        /\ Body.difficulty (get_json request) = Some d
        /\ insert_raises s (Question.mk (question_id_seq s) q a c d) = true) ->
  serve (create_search_question insert_raises request) s = (unprocessable, s).
Proof.
  intros Hsearch Hbad.
  unfold serve, create_search_question. rewrite Hsearch.
  unfold try_except, bind, when.
  destruct Hbad as [H | [H | [H | [H | (q & a & c & d & Hq & Ha & Hc & Hd & Hraise)]]]].
  - rewrite H. reflexivity.
  - rewrite H. destruct (Body.question _); reflexivity.
  - rewrite H. destruct (Body.question _), (Body.answer _); reflexivity.
  - rewrite H.
    destruct (Body.question _), (Body.answer _), (Body.category _); reflexivity.
  - rewrite Hq, Ha, Hc, Hd. cbn. unfold Question_insert. now rewrite Hraise.
Qed.

End HandlerFacts.

Lemma delete_question_missing_id_witness :
  serve (delete_question never_raises (page_query "1") 999) (sample_storage 20)
  = (unprocessable, sample_storage 20).
Proof.
  refine (proj1 (delete_question_missing_id never_raises (page_query "1") 999
                   (sample_storage 20) _)).
  intros q Hq. cbn in Hq.
  repeat (destruct Hq as [<- | Hq]; [discriminate|]). contradiction.
Defined.

Lemma retrieve_questions_by_selected_category_spec_witness :
  serve (retrieve_questions_by_selected_category (page_query "1") 7) (sample_storage 3)
    = (bad_request, sample_storage 3)
  /\ serve (retrieve_questions_by_selected_category (page_query "5") 2) (sample_storage 3)
     = (JsonResponse
          [("success", VBool true); ("questions", VQuestions []);
           ("total_questions", VInt 2); ("current_category", VStr "Art")]
          200, sample_storage 3).
Proof.
  split.
  - apply (retrieve_questions_by_selected_category_spec
             (page_query "1") 7 (sample_storage 3)).
    intros c Hc. cbn in Hc.
    repeat (destruct Hc as [<- | Hc]; [discriminate|]). contradiction.
  - refine (proj1 (proj2 (retrieve_questions_by_selected_category_spec
                            (page_query "5") 2 (sample_storage 3))
                         (Category.mk 2 "Art") _ _ eq_refl)).
    + cbn. repeat constructor; cbn; intuition discriminate.
    + cbn. now right; left.
Defined.

Lemma create_question_unprocessable_witness :
  serve (create_search_question never_raises
           (mkRequest [] (create_body (Some "Who?") None (Some 1) (Some 2))))
        (sample_storage 3)
  = (unprocessable, sample_storage 3).
Proof.
  apply create_question_unprocessable; [reflexivity|].
  right. left. reflexivity.
Defined.

(** ** The quiz *)

Lemma random_choice_member {A} (rnd : nat) (seq : list A) s :
  seq <> [] ->
  exists x, In x seq /\ random_choice rnd seq s = (Return x, s).
Proof.
  intros Hne. unfold random_choice.
  assert (Hlt : (rnd mod List.length seq < List.length seq)%nat).
  { apply Nat.mod_upper_bound. destruct seq; [contradiction | discriminate]. }
  destruct (nth_error seq (rnd mod List.length seq)) as [x|] eqn:Hnth.
  - exists x. split; [now apply nth_error_In in Hnth | reflexivity].
  - apply nth_error_None in Hnth. lia.
Qed.

Lemma random_choice_any {A} (seq : list A) (x : A) s :
  In x seq -> exists rnd, random_choice rnd seq s = (Return x, s).
Proof.
  intros Hin. apply In_nth_error in Hin. destruct Hin as [n Hn].
  exists n. unfold random_choice.
  assert (n < List.length seq)%nat by (apply nth_error_Some; congruence).
  rewrite Nat.mod_small by assumption. now rewrite Hn.
Qed.

Lemma len_eq_0 {A} (l : list A) : (len l =? 0) = true <-> l = [].
Proof.
  unfold len. destruct l; cbn; split; intros; try reflexivity; discriminate.
Qed.

(** What [POST /quizzes] computes before it draws: the pool. *)
Lemma create_quiz_questions_run rnd request s previous_questions quiz_category :
  Body.previous_questions (get_json request) = Some previous_questions ->
  Body.quiz_category (get_json request) = Some quiz_category ->
  let pool := quiz_pool (QuizCategory.id quiz_category) previous_questions
                        (questions s) in
  create_quiz_questions rnd request s
  = if len pool =? 0 then (Return [("success", VBool true)], s)
    else (question <- random_choice rnd pool ;;
          ret [("success", VBool true); ("question", VQuestion (format question))]) s.
Proof.
  intros Hpq Hqc pool. unfold create_quiz_questions. rewrite Hpq, Hqc.
  unfold bind at 1. cbn [is_None orb when ret].
  unfold bind at 1. unfold Question_query.
  assert (Hpool :
    (if negb (len previous_questions =? 0)
     then filter (fun q => negb (existsb (Z.eqb (Question.id q)) previous_questions))
            (if QuizCategory.id quiz_category =? 0 then questions s
             else filter (fun q => Question.category q =? QuizCategory.id quiz_category)
                         (questions s))
     else if QuizCategory.id quiz_category =? 0 then questions s
          else filter (fun q => Question.category q =? QuizCategory.id quiz_category)
                      (questions s)) = pool).
  { unfold pool, quiz_pool. destruct (len previous_questions =? 0) eqn:Hlen; cbn [negb].
    - apply len_eq_0 in Hlen. subst previous_questions. cbn [existsb negb].
      now rewrite filter_true.
    - reflexivity. }
  rewrite Hpool. destruct (len pool =? 0); reflexivity.
Qed.

(** C7: with [previous_questions] and [quiz_category] both present, the
    pool is all questions for category id 0 and the questions of the
    category otherwise, without those whose id is in [previous_questions].
    A non-empty pool gives a 200 answer whose question is a member of the
    pool, and every member is the answer of some draw; an empty pool gives
    a 200 answer with [success] alone. *)
Theorem create_quiz_questions_pool rnd request s previous_questions quiz_category :
  Body.previous_questions (get_json request) = Some previous_questions ->
  Body.quiz_category (get_json request) = Some quiz_category ->
  let pool := quiz_pool (QuizCategory.id quiz_category) previous_questions
                        (questions s) in
  (forall q, In q pool <->
     In q (questions s)
     /\ (QuizCategory.id quiz_category = 0
         \/ Question.category q = QuizCategory.id quiz_category)
     /\ ~ In (Question.id q) previous_questions)
  /\ (pool = [] ->
      serve (create_quiz_questions rnd request) s
      = (JsonResponse [("success", VBool true)] 200, s))
  /\ (pool <> [] ->
      exists q, In q pool
        /\ serve (create_quiz_questions rnd request) s
           = (JsonResponse [("success", VBool true);
                            ("question", VQuestion (format q))] 200, s))
  /\ (forall q, In q pool ->
      exists rnd',
        serve (create_quiz_questions rnd' request) s
        = (JsonResponse [("success", VBool true);
                         ("question", VQuestion (format q))] 200, s)).
Proof.
  intros Hpq Hqc pool.
  assert (Hrun := fun r => create_quiz_questions_run r request s _ _ Hpq Hqc).
  cbv zeta in Hrun. fold pool in Hrun.
  split; [|split; [|split]].
  - intros q. unfold pool, quiz_pool. rewrite filter_In, negb_true_iff.
    assert (Hprev : existsb (Z.eqb (Question.id q)) previous_questions = false
                    <-> ~ In (Question.id q) previous_questions).
    { rewrite <- not_true_iff_false, existsb_exists. split.
      - intros H Hin. apply H. exists (Question.id q). split; [assumption|].
        apply Z.eqb_refl.
      - intros H (x & Hx & Heq). apply Z.eqb_eq in Heq. now subst x. }
    rewrite Hprev.
    destruct (Z.eqb_spec (QuizCategory.id quiz_category) 0) as [H0|H0].
    + intuition.
    + rewrite filter_In, Z.eqb_eq. intuition.
  - intros Hnil. unfold serve. rewrite Hrun, Hnil. reflexivity.
  - intros Hne. unfold serve. rewrite Hrun.
    destruct (len pool =? 0) eqn:Hlen; [now apply len_eq_0 in Hlen|].
    destruct (random_choice_member rnd pool s Hne) as (q & Hq & Hchoice).
    exists q. split; [assumption|]. unfold bind. now rewrite Hchoice.
  - intros q Hq.
    destruct (random_choice_any pool q s Hq) as (rnd' & Hchoice).
    exists rnd'. unfold serve. rewrite Hrun.
    destruct (len pool =? 0) eqn:Hlen.
    + apply len_eq_0 in Hlen. rewrite Hlen in Hq. contradiction.
    + unfold bind. now rewrite Hchoice.
Qed.

Lemma create_quiz_questions_pool_witness :
  serve (create_quiz_questions 7
           (mkRequest [] (quiz_body (Some [1; 3]) (Some (QuizCategory.mk 2 "Art")))))
        (sample_storage 3)
  = (JsonResponse [("success", VBool true)] 200, sample_storage 3).
Proof.
  refine (proj1 (proj2 (create_quiz_questions_pool 7
                          (mkRequest [] (quiz_body (Some [1; 3])
                                                   (Some (QuizCategory.mk 2 "Art"))))
                          (sample_storage 3)
                          [1; 3] (QuizCategory.mk 2 "Art") eq_refl eq_refl)) _).
  reflexivity.
Defined.

(** C9: [POST /quizzes] answers with the 400 envelope exactly when
    [previous_questions] or [quiz_category] is absent or null; an empty
    [previous_questions] list is present, and is answered with 200. *)
Theorem create_quiz_questions_bad_request rnd request s :
  (fst (serve (create_quiz_questions rnd request) s) = bad_request
   <-> Body.previous_questions (get_json request) = None
       \/ Body.quiz_category (get_json request) = None)
  /\ (forall quiz_category,
        Body.previous_questions (get_json request) = Some [] ->
        Body.quiz_category (get_json request) = Some quiz_category ->
        status_of (fst (serve (create_quiz_questions rnd request) s)) = 200).
Proof.
  assert (Hok : forall pq qc,
            Body.previous_questions (get_json request) = Some pq ->
            Body.quiz_category (get_json request) = Some qc ->
            status_of (fst (serve (create_quiz_questions rnd request) s)) = 200).
  { intros pq qc Hpq Hqc.
    unfold serve. rewrite (create_quiz_questions_run rnd request s pq qc Hpq Hqc).
    cbv zeta. destruct (len _ =? 0) eqn:Hlen; [reflexivity|].
    assert (Hne : quiz_pool (QuizCategory.id qc) pq (questions s) <> []).
    { intros Hnil. apply len_eq_0 in Hnil. congruence. }
    destruct (random_choice_member rnd _ s Hne) as (q & _ & Hchoice).
    unfold bind. now rewrite Hchoice. }
  split.
  - split.
    + intros Hbad.
      destruct (Body.previous_questions (get_json request)) as [pq|] eqn:Hpq;
        [|now left].
      destruct (Body.quiz_category (get_json request)) as [qc|] eqn:Hqc;
        [|now right].
      specialize (Hok pq qc eq_refl eq_refl). rewrite Hbad in Hok. discriminate.
    + intros Hnone. unfold serve, create_quiz_questions, bind, when.
      destruct Hnone as [H | H]; rewrite H.
      * destruct (Body.quiz_category _); reflexivity.
      * reflexivity.
  - intros qc Hpq Hqc. now apply (Hok [] qc).
Qed.

Lemma create_quiz_questions_bad_request_witness :
  status_of (fst (serve (create_quiz_questions 4
                           (mkRequest [] (quiz_body (Some [])
                                                    (Some (QuizCategory.mk 0 "click")))))
                        (sample_storage 3))) = 200
  /\ fst (serve (create_quiz_questions 4
                   (mkRequest [] (quiz_body None (Some (QuizCategory.mk 0 "click")))))
                (sample_storage 3)) = bad_request.
Proof.
  split.
  - exact (proj2 (create_quiz_questions_bad_request 4
                    (mkRequest [] (quiz_body (Some []) (Some (QuizCategory.mk 0 "click"))))
                    (sample_storage 3))
                 (QuizCategory.mk 0 "click") eq_refl eq_refl).
  - apply (proj1 (create_quiz_questions_bad_request 4
                    (mkRequest [] (quiz_body None (Some (QuizCategory.mk 0 "click"))))
                    (sample_storage 3))).
    left. reflexivity.
Defined.

(** ** Creating a question *)

Lemma stored_wf s q :
  Question.id q = question_id_seq s -> Storage_wf s ->
  Storage_wf (stored s q) /\ ~ In (Question.id q) (map Question.id (questions s)).
Proof.
  intros Hid (Hq & Hc & Hlt).
  assert (Hfresh : ~ In (Question.id q) (map Question.id (questions s))).
  { intros Hin. apply in_map_iff in Hin. destruct Hin as (x & Hx & Hin).
    rewrite Forall_forall in Hlt. specialize (Hlt x Hin). lia. }
  split; [|exact Hfresh].
  unfold Storage_wf, stored; cbn. split; [|split].
  - rewrite map_app. cbn.
    apply NoDup_app; [assumption | repeat constructor; intros [] |].
    intros x Hx [<- | []]. contradiction.
  - assumption.
  - apply Forall_app. split.
    + eapply Forall_impl; [|exact Hlt]. cbn. intros; lia.
    + repeat constructor. lia.
Qed.

Section CreateFacts.

Variable insert_raises : Storage -> Question.t -> bool.

(** What [POST /questions] answers on its create branch when the insert
    goes through. *)
Lemma create_question_run request s q a c d :
  truthy (Body.searchTerm (get_json request)) = false ->
  Body.question (get_json request) = Some q ->
  Body.answer (get_json request) = Some a ->
  Body.category (get_json request) = Some c ->
  Body.difficulty (get_json request) = Some d ->
  insert_raises s (Question.mk (question_id_seq s) q a c d) = false ->
  let new := Question.mk (question_id_seq s) q a c d in
  let selection := order_by_id (questions (stored s new)) in
  serve (create_search_question insert_raises request) s
  = (JsonResponse
       [("success", VBool true);
        ("created", VInt (question_id_seq s));
        ("questions",
         VQuestions (paginate_questions request selection
                       (Py.ceil_div (len selection) 10)));
        ("total_questions", VInt (len selection))]
       200,
     stored s new).
Proof.
  intros Hsearch Hq Ha Hc Hd Hins. cbv zeta.
  unfold serve, create_search_question. rewrite Hsearch, Hq, Ha, Hc, Hd.
  unfold try_except, bind, when. cbn [is_None orb ret].
  unfold Question_insert. rewrite Hins. reflexivity.
Qed.

(** C4: a create request with the four fields, whose insert goes through,
    stores the new record under a fresh id, which raises the number of
    questions by exactly 1; the answer carries that id as [created] and the
    new total. Its [questions] are the last page, [ceil(total/10)], when the
    request has no [page] parameter or one that is not an integer. The code
    leaves the claim, and its own comments, when the request has an integer
    [page] parameter [p]: [paginate_questions] reads the parameter again and
    takes the page number it is handed only as the default, so the answer
    lists page [p]. *)
Theorem create_question_created request s q a c d :
  truthy (Body.searchTerm (get_json request)) = false ->
  Body.question (get_json request) = Some q ->
  Body.answer (get_json request) = Some a ->
  Body.category (get_json request) = Some c ->
  Body.difficulty (get_json request) = Some d ->
  insert_raises s (Question.mk (question_id_seq s) q a c d) = false ->
  let new := Question.mk (question_id_seq s) q a c d in
  let s' := snd (serve (create_search_question insert_raises request) s) in
  let response := fst (serve (create_search_question insert_raises request) s) in
  let selection := order_by_id (questions s') in
  let last := Py.ceil_div (len selection) 10 in
  let page := args_get_int (args request) "page" last in
  questions s' = questions s ++ [new]
  /\ len (questions s') = len (questions s) + 1
  /\ (Storage_wf s ->
      Storage_wf s' /\ ~ In (Question.id new) (map Question.id (questions s)))
  /\ response
     = JsonResponse
         [("success", VBool true);
          ("created", VInt (Question.id new));
          ("questions",
           VQuestions (Py.slice (map format selection)
                                ((page - 1) * 10) ((page - 1) * 10 + 10)));
          ("total_questions", VInt (len (questions s) + 1))]
         200
  /\ (match args_lookup "page" (args request) with
      | None => True
      | Some v => Py.int v = None
      end ->
      page = last
      /\ 1 <= last
      /\ questions_of response
         = Some (firstn 10 (skipn (Z.to_nat ((last - 1) * 10)) (map format selection))))
  /\ (forall p, 1 <= p -> page = p ->
      questions_of response
      = Some (firstn 10 (skipn (Z.to_nat ((p - 1) * 10)) (map format selection)))).
Proof.
  intros Hsearch Hq Ha Hc Hd Hins. cbv zeta.
  rewrite (create_question_run request s q a c d) by assumption.
  cbn [fst snd]. set (new := Question.mk (question_id_seq s) q a c d).
  assert (Hlen : len (order_by_id (questions (stored s new))) = len (questions s) + 1).
  { unfold len. rewrite length_order_by_id. cbn. rewrite length_app. cbn. lia. }
  split; [reflexivity|].
  split; [unfold len; cbn; rewrite length_app; cbn; lia|].
  split; [intros Hwf; now apply stored_wf|].
  split; [now rewrite Hlen|].
  set (selection := order_by_id (questions (stored s new))) in *.
  pose proof (ceil_div_10_bounds (len selection) ltac:(unfold len; lia)) as Hb.
  assert (Hlast : 1 <= Py.ceil_div (len selection) 10).
  { rewrite Hlen in *. unfold len in *. lia. }
  split.
  - intros Harg.
    assert (Hpage : args_get_int (args request) "page" (Py.ceil_div (len selection) 10)
                    = Py.ceil_div (len selection) 10).
    { unfold args_get_int. destruct (args_lookup "page" (args request)); trivial.
      now rewrite Harg. }
    split; [exact Hpage|]. split; [exact Hlast|].
    cbn [questions_of json_get String.eqb Ascii.eqb Bool.eqb].
    rewrite paginate_questions_page by (rewrite Hpage; exact Hlast).
    now rewrite Hpage.
  - intros p Hp Hpage.
    cbn [questions_of json_get String.eqb Ascii.eqb Bool.eqb].
    rewrite paginate_questions_page by (rewrite Hpage; exact Hp).
    now rewrite Hpage.
Qed.

End CreateFacts.

Lemma create_question_created_witness :
  questions_of
    (fst (serve (create_search_question never_raises
                   (mkRequest [] (create_body (Some "Who?") (Some "Me") (Some 1) (Some 2))))
                (sample_storage 10)))
  = Some [format (Question.mk 11 "Who?" "Me" 1 2)].
Proof.
  destruct (create_question_created never_raises
              (mkRequest [] (create_body (Some "Who?") (Some "Me") (Some 1) (Some 2)))
              (sample_storage 10) "Who?" "Me" 1 2
              eq_refl eq_refl eq_refl eq_refl eq_refl eq_refl)
    as (_ & _ & _ & _ & Hlast & _).
  destruct (Hlast I) as (_ & _ & ->). reflexivity.
Defined.

(** C4 at the failing input: a create request sent to [/questions?page=1]
    on a storage of 10 questions is answered with the first page, not with
    the last one, which holds the new question alone. So the answer is not
    the last page for every create request. *)
Lemma create_question_last_page_counterexample :
  ~ (forall insert_raises request s q a c d,
       truthy (Body.searchTerm (get_json request)) = false ->
       Body.question (get_json request) = Some q ->
       Body.answer (get_json request) = Some a ->
       Body.category (get_json request) = Some c ->
       Body.difficulty (get_json request) = Some d ->
       insert_raises s (Question.mk (question_id_seq s) q a c d) = false ->
       let s' := snd (serve (create_search_question insert_raises request) s) in
       let response := fst (serve (create_search_question insert_raises request) s) in
       let selection := order_by_id (questions s') in
       let last := Py.ceil_div (len selection) 10 in
       questions_of response
       = Some (firstn 10 (skipn (Z.to_nat ((last - 1) * 10)) (map format selection)))).
Proof.
  intros Hclaim.
  specialize (Hclaim never_raises
                (mkRequest [("page", "1")]
                           (create_body (Some "Who?") (Some "Me") (Some 1) (Some 2)))
                (sample_storage 10) "Who?" "Me" 1 2
                eq_refl eq_refl eq_refl eq_refl eq_refl eq_refl).
  vm_compute in Hclaim. discriminate Hclaim.
Qed.

(** ** Searching questions *)

Lemma prefixb_spec p t : prefixb p t = true <-> exists post, t = p ++ post.
Proof.
  revert t; induction p as [|a p IH]; intros t; cbn.
  - split; [intros _; now exists t | reflexivity].
  - destruct t as [|b t].
    + split; [discriminate | intros (post & H); discriminate].
    + rewrite andb_true_iff, Ascii.eqb_eq, IH. split.
      * intros (-> & post & ->). now exists post.
      * intros (post & H). injection H as -> ->. split; [reflexivity | now exists post].
Qed.

Lemma infixb_spec p t :
  infixb p t = true <-> exists pre post, t = pre ++ p ++ post.
Proof.
  induction t as [|b t IH]; cbn [infixb]; rewrite orb_true_iff, prefixb_spec.
  - split.
    + intros [(post & H) | H]; [|discriminate]. now exists [], post.
    + intros (pre & post & H). left. exists post.
      destruct pre; [exact H | discriminate].
  - rewrite IH. split.
    + intros [(post & H) | (pre & post & H)].
      * now exists [], post.
      * exists (b :: pre), post. cbn. now rewrite H.
    + intros (pre & post & H). destruct pre as [|c pre].
      * left. now exists post.
      * right. injection H as _ H. now exists pre, post.
Qed.

Lemma like_percent rest t :
  Sql.like ("%"%char :: rest) t
  = Sql.like rest t || match t with
                       | [] => false
                       | _ :: t' => Sql.like ("%"%char :: rest) t'
                       end.
Proof. destruct t; reflexivity. Qed.

Lemma like_percent_only t : Sql.like ["%"%char] t = true.
Proof.
  induction t as [|c t IH]; [reflexivity|].
  rewrite like_percent, IH. apply orb_true_r.
Qed.

Lemma like_literal a rest t :
  is_wildcard a = false ->
  Sql.like (a :: rest) t
  = match t with
    | [] => false
    | c :: t' => Ascii.eqb a c && Sql.like rest t'
    end.
Proof.
  unfold is_wildcard. intros H.
  apply orb_false_iff in H. destruct H as [H H3].
  apply orb_false_iff in H. destruct H as [H1 H2].
  cbn [Sql.like]. now rewrite H1, H2, H3.
Qed.

(** A pattern of literal characters followed by [%] matches the texts that
    start with these characters. *)
Lemma like_prefix p t :
  wildcard_free p = true -> Sql.like (p ++ ["%"%char]) t = prefixb p t.
Proof.
  revert t; induction p as [|a p IH]; intros t Hp.
  - apply like_percent_only.
  - cbn in Hp. apply andb_true_iff in Hp. destruct Hp as [Ha Hp].
    apply negb_true_iff in Ha. cbn [app]. rewrite like_literal by assumption.
    destruct t as [|c t]; [reflexivity|]. cbn [prefixb]. now rewrite IH.
Qed.

(** [%literal%] matches the texts in which the literal occurs. *)
Lemma like_infix p t :
  wildcard_free p = true ->
  Sql.like ("%"%char :: p ++ ["%"%char]) t = infixb p t.
Proof.
  intros Hp. induction t as [|c t IH]; rewrite like_percent, like_prefix by assumption.
  - reflexivity.
  - cbn [infixb]. now rewrite IH.
Qed.

Lemma is_wildcard_lower c : is_wildcard (Py.lower_ascii c) = is_wildcard c.
Proof. destruct c as [[] [] [] [] [] [] [] []]; reflexivity. Qed.

Lemma wildcard_free_lower s : wildcard_free (Py.lower s) = wildcard_free s.
Proof.
  unfold wildcard_free, Py.lower.
  induction s as [|c s IH]; [reflexivity|].
  cbn [map forallb]. now rewrite is_wildcard_lower, IH.
Qed.

Lemma list_ascii_of_string_app (a b : string) :
  list_ascii_of_string (a ++ b)%string
  = list_ascii_of_string a ++ list_ascii_of_string b.
Proof. induction a as [|c a IH]; cbn; [reflexivity | now rewrite IH]. Qed.

(** The pattern of a search for a term without wildcards matches the texts
    that contain the term, case ignored. *)
Lemma ilike_wildcard_free term text :
  wildcard_free (list_ascii_of_string term) = true ->
  Sql.ilike text ("%" ++ term ++ "%")%string
  = infixb (Py.lower (list_ascii_of_string term)) (Py.lower (list_ascii_of_string text)).
Proof.
  intros Hfree. unfold Sql.ilike.
  change ("%" ++ term ++ "%")%string with (String "%"%char (term ++ "%")%string).
  cbn [list_ascii_of_string]. rewrite list_ascii_of_string_app.
  unfold Py.lower at 1. cbn [map]. rewrite map_app. cbn [list_ascii_of_string map].
  change (Py.lower_ascii "%"%char) with "%"%char.
  apply like_infix. fold (Py.lower (list_ascii_of_string term)).
  now rewrite wildcard_free_lower.
Qed.

Lemma in_insert_by_id q x l : In x (insert_by_id q l) <-> x = q \/ In x l.
Proof.
  induction l as [|y l IH]; cbn.
  - intuition.
  - destruct (Question.id q <=? Question.id y); cbn; [intuition|].
    rewrite IH. intuition.
Qed.

Lemma in_order_by_id x l : In x (order_by_id l) <-> In x l.
Proof.
  unfold order_by_id. induction l as [|y l IH]; cbn [fold_right]; [reflexivity|].
  rewrite in_insert_by_id, IH. cbn. intuition.
Qed.

(** The patterns of the searches for [_], for [%] and for a backslash. *)
Lemma like_underscore t :
  Sql.like ["%"%char; "_"%char; "%"%char] t = negb (match t with [] => true | _ => false end).
Proof.
  destruct t as [|c t]; [reflexivity|].
  rewrite like_percent.
  change (Sql.like ["_"%char; "%"%char] (c :: t)) with (Sql.like ["%"%char] t).
  now rewrite like_percent_only.
Qed.

Lemma like_everything t : Sql.like ["%"%char; "%"%char; "%"%char] t = true.
Proof.
  rewrite like_percent.
  replace (Sql.like ["%"%char; "%"%char] t) with true; [reflexivity|].
  rewrite like_percent. now rewrite like_percent_only.
Qed.

Lemma like_backslash t :
  Sql.like ["%"%char; "\"%char; "%"%char] t = true
  <-> exists pre, t = pre ++ ["%"%char].
Proof.
  induction t as [|c t IH]; rewrite like_percent.
  - cbn. split; [discriminate|]. intros (pre & H). now destruct pre.
  - rewrite orb_true_iff, IH.
    change (Sql.like ["\"%char; "%"%char] (c :: t))
      with (Ascii.eqb "%"%char c && Sql.like [] t).
    rewrite andb_true_iff, Ascii.eqb_eq. split.
    + intros [[<- Ht] | (pre & ->)].
      * destruct t; [now exists [] | discriminate].
      * now exists (c :: pre).
    + intros (pre & H). destruct pre as [|c' pre].
      * injection H as -> ->. left. now split.
      * injection H as _ ->. right. now exists pre.
Qed.

Lemma lower_nil_iff text :
  Py.lower (list_ascii_of_string text) = [] <-> text = "".
Proof. destruct text; cbn; split; (reflexivity || discriminate). Qed.

Section SearchFacts.

Variable insert_raises : Storage -> Question.t -> bool.

(** What [POST /questions] answers on its search branch. *)
Lemma search_questions_run request s term :
  Body.searchTerm (get_json request) = Some term ->
  term <> "" ->
  let selection :=
    filter (fun q => Sql.ilike (Question.question q) ("%" ++ term ++ "%")%string)
           (order_by_id (questions s)) in
  serve (create_search_question insert_raises request) s
  = (if len selection =? 0 then not_found
     else JsonResponse
            [("success", VBool true);
             ("questions", VQuestions (paginate_questions request selection 1));
             ("total_questions", VInt (len selection))]
            200,
     s).
Proof.
  intros Hterm Hne. cbv zeta.
  unfold serve, create_search_question. rewrite Hterm.
  apply String.eqb_neq in Hne. cbn [truthy str_of]. rewrite Hne. cbn [negb].
  unfold bind, Question_query, ret, when, abort, raise.
  destruct (len _ =? 0); reflexivity.
Qed.

(** C5: a request with a non-empty [searchTerm] selects, in id order, the
    questions whose text matches the [ILIKE] pattern [%searchTerm%]; it is
    answered with 404 when none does, and otherwise with the requested page
    of the selection and the number of matches. For a term without the
    characters [%], [_] and backslash, the selection is exactly the
    questions whose text contains the term, case ignored, as the claim
    says. The term goes into the pattern unescaped, and there the code
    leaves the claim: a search for [_] selects every question with a
    non-empty text, a search for [%] selects every question, and a search
    for a backslash selects the questions whose text ends in [%]. *)
Theorem search_questions_spec request s term :
  Body.searchTerm (get_json request) = Some term ->
  term <> "" ->
  let selection :=
    filter (fun q => Sql.ilike (Question.question q) ("%" ++ term ++ "%")%string)
           (order_by_id (questions s)) in
  serve (create_search_question insert_raises request) s
  = (if len selection =? 0 then not_found
     else JsonResponse
            [("success", VBool true);
             ("questions", VQuestions (paginate_questions request selection 1));
             ("total_questions", VInt (len selection))]
            200,
     s)
  /\ (selection = [] ->
      serve (create_search_question insert_raises request) s = (not_found, s))
  /\ (wildcard_free (list_ascii_of_string term) = true ->
      forall q, In q selection
                <-> In q (questions s) /\ icontains term (Question.question q))
  /\ (term = "_" ->
      forall q, In q selection
                <-> In q (questions s) /\ Question.question q <> "")
  /\ (term = "%" -> selection = order_by_id (questions s))
  /\ (term = "\" ->
      forall q, In q selection
                <-> In q (questions s)
                    /\ exists pre, Py.lower (list_ascii_of_string (Question.question q))
                                   = pre ++ ["%"%char]).
Proof.
  intros Hterm Hne selection.
  pose proof (search_questions_run request s term Hterm Hne) as Hrun.
  cbv zeta in Hrun. fold selection in Hrun.
  split; [exact Hrun|]. repeat apply conj.
  - intros Hnil. rewrite Hrun, Hnil. reflexivity.
  - intros Hfree q. unfold selection.
    rewrite filter_In, in_order_by_id, ilike_wildcard_free by assumption.
    unfold icontains. now rewrite infixb_spec.
  - intros -> q. unfold selection. rewrite filter_In, in_order_by_id.
    unfold Sql.ilike.
    change (Py.lower (list_ascii_of_string ("%" ++ "_" ++ "%")%string))
      with ["%"%char; "_"%char; "%"%char].
    rewrite like_underscore, <- lower_nil_iff.
    destruct (Py.lower (list_ascii_of_string (Question.question q))); cbn;
      intuition congruence.
  - intros ->. unfold selection. apply filter_all. intros q _. unfold Sql.ilike.
    change (Py.lower (list_ascii_of_string ("%" ++ "%" ++ "%")%string))
      with ["%"%char; "%"%char; "%"%char].
    apply like_everything.
  - intros -> q. unfold selection. rewrite filter_In, in_order_by_id.
    unfold Sql.ilike.
    change (Py.lower (list_ascii_of_string ("%" ++ "\" ++ "%")%string))
      with ["%"%char; "\"%char; "%"%char].
    now rewrite like_backslash.
Qed.

End SearchFacts.

Lemma search_questions_spec_witness :
  serve (create_search_question never_raises (mkRequest [] (search_body "PLANET")))
        (sample_storage 2)
  = (JsonResponse
       [("success", VBool true);
        ("questions", VQuestions (map format (sample_rows 2)));
        ("total_questions", VInt 2)]
       200, sample_storage 2)
  /\ serve (create_search_question never_raises (mkRequest [] (search_body "moon")))
           (sample_storage 2)
     = (not_found, sample_storage 2)
  /\ serve (create_search_question never_raises (mkRequest [] (search_body "_")))
           (sample_storage 2)
     = (JsonResponse
          [("success", VBool true);
           ("questions", VQuestions (map format (sample_rows 2)));
           ("total_questions", VInt 2)]
          200, sample_storage 2).
Proof.
  split; [|split].
  - rewrite (proj1 (search_questions_spec never_raises
                      (mkRequest [] (search_body "PLANET")) (sample_storage 2) "PLANET"
                      eq_refl ltac:(discriminate))).
    vm_compute. reflexivity.
  - refine (proj1 (proj2 (search_questions_spec never_raises
                            (mkRequest [] (search_body "moon")) (sample_storage 2) "moon"
                            eq_refl ltac:(discriminate))) _).
    vm_compute. reflexivity.
  - rewrite (proj1 (search_questions_spec never_raises
                      (mkRequest [] (search_body "_")) (sample_storage 2) "_"
                      eq_refl ltac:(discriminate))).
    vm_compute. reflexivity.
Defined.

(** C5 at the failing input: a search for [_] returns a question whose text
    has no underscore. So the answer does not hold only questions that
    contain the term for every search. *)
Lemma search_questions_substring_counterexample :
  ~ (forall insert_raises request s term,
       Body.searchTerm (get_json request) = Some term ->
       term <> "" ->
       forall l,
         questions_of (fst (serve (create_search_question insert_raises request) s))
         = Some l ->
         forall f, In f l -> icontains term (f_question f)).
Proof.
  intros Hclaim.
  assert (Hresponse :
    questions_of (fst (serve (create_search_question never_raises
                                (mkRequest [] (search_body "_")))
                             (sample_storage 1)))
    = Some [format (sample_question 1)]) by (vm_compute; reflexivity).
  specialize (Hclaim never_raises (mkRequest [] (search_body "_")) (sample_storage 1)
                "_" eq_refl ltac:(discriminate) _ Hresponse
                (format (sample_question 1)) (or_introl eq_refl)).
  unfold icontains in Hclaim. apply infixb_spec in Hclaim.
  vm_compute in Hclaim. discriminate Hclaim.
Qed.

(** * Further properties of the handlers *)

(** ** Slices of any bounds *)

Lemma slice_length {A} (l : list A) (a b : Z) :
  List.length (Py.slice l a b)
  = Z.to_nat (Py.adjust_index (Z.of_nat (List.length l)) b
              - Py.adjust_index (Z.of_nat (List.length l)) a).
Proof.
  unfold Py.slice. rewrite length_firstn, length_skipn.
  set (n := Z.of_nat (List.length l)).
  assert (Hn : List.length l = Z.to_nat n) by (subst n; lia).
  assert (Hb : forall i, 0 <= Py.adjust_index n i <= n).
  { intros i. unfold Py.adjust_index.
    destruct (Z.ltb_spec i 0); [destruct (Z.ltb_spec (i + n) 0)|destruct (Z.leb_spec n i)];
      subst n; lia. }
  pose proof (Hb a). pose proof (Hb b). lia.
Qed.

(** A slice is a run of consecutive elements of the list, whatever the
    bounds, negative ones included. *)
Lemma slice_segment {A} (l : list A) (a b : Z) :
  exists pre post, l = pre ++ Py.slice l a b ++ post.
Proof.
  unfold Py.slice.
  set (i := Z.to_nat (Py.adjust_index (Z.of_nat (List.length l)) a)).
  set (k := Z.to_nat _).
  exists (firstn i l), (skipn k (skipn i l)).
  now rewrite firstn_skipn, firstn_skipn.
Qed.

(** X1: the page that [paginate_questions] returns is a run of consecutive
    records of the formatted selection, for every value of the [page]
    parameter: nothing is reordered, repeated or made up. *)
Theorem paginate_questions_segment request selection page_num :
  exists pre post,
    map format selection
    = pre ++ paginate_questions request selection page_num ++ post.
Proof. rewrite paginate_questions_slice. apply slice_segment. Qed.

(** X2: [GET /questions] answers 200 or 404 and nothing else. With [n]
    stored questions and [p] the page read from the request, it answers 200
    exactly when [p >= 1] and the offset [(p-1)*10] is below [n], or when
    [p] is negative and more than [-10*p] questions are stored. *)
Theorem retrieve_questions_status request s :
  let n := len (questions s) in
  let p := args_get_int (args request) "page" 1 in
  let response := fst (serve (retrieve_questions request) s) in
  (response = not_found \/ status_of response = 200)
  /\ (status_of response = 200
      <-> (1 <= p /\ (p - 1) * 10 < n) \/ (p < 0 /\ - (10 * p) < n)).
Proof.
  cbv zeta. rewrite retrieve_questions_run. cbv zeta. cbn [fst].
  set (page := paginate_questions request (order_by_id (questions s)) 1).
  assert (Hlen : len page
            = Z.of_nat (Z.to_nat
                (Py.adjust_index (len (questions s))
                   ((args_get_int (args request) "page" 1 - 1) * 10 + 10)
                 - Py.adjust_index (len (questions s))
                     ((args_get_int (args request) "page" 1 - 1) * 10)))).
  { unfold page, len. rewrite paginate_questions_slice. cbv zeta.
    rewrite slice_length, length_map, length_order_by_id. reflexivity. }
  set (p := args_get_int (args request) "page" 1) in *.
  set (n := len (questions s)) in *.
  assert (Hn : 0 <= n) by (subst n; unfold len; lia).
  destruct (Z.eqb_spec (len page) 0) as [H0 | H0].
  - split; [now left|]. cbn [status_of not_found]. split; [discriminate|].
    intros Hp. exfalso. rewrite Hlen in H0. revert H0. unfold Py.adjust_index.
    repeat match goal with
           | |- context [Z.ltb ?x ?y] => destruct (Z.ltb_spec x y)
           | |- context [Z.leb ?x ?y] => destruct (Z.leb_spec x y)
           end; lia.
  - split; [now right|]. cbn [status_of]. split; [|reflexivity].
    intros _. rewrite Hlen in H0. revert H0. unfold Py.adjust_index.
    repeat match goal with
           | |- context [Z.ltb ?x ?y] => destruct (Z.ltb_spec x y)
           | |- context [Z.leb ?x ?y] => destruct (Z.leb_spec x y)
           end; lia.
Qed.

(** ** The order of the listed questions *)

Lemma insert_by_id_perm q l : Permutation (insert_by_id q l) (q :: l).
Proof.
  induction l as [|x l IH]; cbn; [reflexivity|].
  destruct (Question.id q <=? Question.id x); [reflexivity|].
  rewrite IH. apply perm_swap.
Qed.

Lemma order_by_id_perm l : Permutation (order_by_id l) l.
Proof.
  unfold order_by_id. induction l as [|x l IH]; cbn [fold_right]; [reflexivity|].
  rewrite insert_by_id_perm. now constructor.
Qed.

Lemma insert_by_id_sorted q l :
  StronglySorted (fun a b => Question.id a <= Question.id b) l ->
  StronglySorted (fun a b => Question.id a <= Question.id b) (insert_by_id q l).
Proof.
  induction 1 as [|x l Hs IH Hx]; cbn.
  - repeat constructor.
  - destruct (Z.leb_spec (Question.id q) (Question.id x)) as [Hle | Hgt].
    + constructor; [now constructor|]. constructor; [assumption|].
      eapply Forall_impl; [|exact Hx]. cbn. intros; lia.
    + constructor; [assumption|].
      apply Forall_forall. intros y Hy. apply in_insert_by_id in Hy.
      destruct Hy as [-> | Hy]; [lia|].
      rewrite Forall_forall in Hx. now apply Hx.
Qed.

Lemma order_by_id_sorted l :
  StronglySorted (fun a b => Question.id a <= Question.id b) (order_by_id l).
Proof.
  unfold order_by_id. induction l as [|x l IH]; cbn [fold_right]; [constructor|].
  now apply insert_by_id_sorted.
Qed.

Lemma StronglySorted_app_r {A} (R : A -> A -> Prop) (l1 l2 : list A) :
  StronglySorted R (l1 ++ l2) -> StronglySorted R l2.
Proof.
  induction l1 as [|x l1 IH]; cbn; [trivial|].
  intros H. apply StronglySorted_inv in H. now apply IH.
Qed.

Lemma StronglySorted_app_l {A} (R : A -> A -> Prop) (l1 l2 : list A) :
  StronglySorted R (l1 ++ l2) -> StronglySorted R l1.
Proof.
  induction l1 as [|x l1 IH]; cbn; [constructor|].
  intros H. apply StronglySorted_inv in H. destruct H as [Hs Hx].
  constructor; [now apply IH|].
  apply Forall_app in Hx. tauto.
Qed.

Lemma StronglySorted_map {A B} (f : A -> B) (R : B -> B -> Prop) (l : list A) :
  StronglySorted (fun a b => R (f a) (f b)) l -> StronglySorted R (map f l).
Proof.
  induction 1 as [|x l Hs IH Hx]; cbn; constructor; trivial.
  now apply Forall_map.
Qed.

(** Every question that [GET /questions] lists is the formatting of a
    stored one. *)
Lemma retrieve_questions_listed request s l :
  questions_of (fst (serve (retrieve_questions request) s)) = Some l ->
  forall f, In f l -> exists q, In q (questions s) /\ f = format q.
Proof.
  rewrite retrieve_questions_run. cbv zeta. cbn [fst].
  destruct (len _ =? 0); [discriminate|].
  cbn [questions_of json_get String.eqb Ascii.eqb Bool.eqb].
  intros H. injection H as <-. intros f Hf.
  rewrite paginate_questions_slice in Hf. apply slice_incl in Hf.
  apply in_map_iff in Hf. destruct Hf as (q & <- & Hq).
  exists q. split; [now apply in_order_by_id | reflexivity].
Qed.

(** X3: the questions that [GET /questions] lists are in ascending order of
    id on every page, and the selection the pages are cut from holds every
    stored question exactly as often as the table does. *)
Theorem retrieve_questions_ascending request s l :
  questions_of (fst (serve (retrieve_questions request) s)) = Some l ->
  ascending_ids l
  /\ Permutation (order_by_id (questions s)) (questions s)
  /\ (forall f, In f l -> exists q, In q (questions s) /\ f = format q).
Proof.
  rewrite retrieve_questions_run. cbv zeta. cbn [fst].
  destruct (len _ =? 0); [discriminate|].
  cbn [questions_of json_get String.eqb Ascii.eqb Bool.eqb].
  intros H. injection H as <-.
  split; [|split].
  - unfold ascending_ids.
    destruct (slice_segment (map format (order_by_id (questions s)))
                ((args_get_int (args request) "page" 1 - 1) * 10)
                ((args_get_int (args request) "page" 1 - 1) * 10 + 10))
      as (pre & post & Hseg).
    rewrite paginate_questions_slice. cbv zeta.
    assert (Hsorted : StronglySorted Z.le (map f_id (map format (order_by_id (questions s))))).
    { rewrite map_map. cbn. apply StronglySorted_map, order_by_id_sorted. }
    rewrite Hseg, !map_app in Hsorted.
    apply StronglySorted_app_r in Hsorted. now apply StronglySorted_app_l in Hsorted.
  - apply order_by_id_perm.
  - intros f Hf. rewrite paginate_questions_slice in Hf. apply slice_incl in Hf.
    apply in_map_iff in Hf. destruct Hf as (q & <- & Hq).
    exists q. split; [now apply in_order_by_id | reflexivity].
Qed.

Lemma retrieve_questions_ascending_witness :
  ascending_ids (map format (sample_rows 3)).
Proof.
  refine (proj1 (retrieve_questions_ascending (mkRequest [] Body.empty)
                   (mkStorage (rev (sample_rows 3)) sample_categories 4)
                   (map format (sample_rows 3)) _)).
  vm_compute. reflexivity.
Defined.

(** ** Deleting a question *)

Lemma removed_length s q :
  NoDup (map Question.id (questions s)) -> In q (questions s) ->
  len (questions (removed s (Question.id q))) = len (questions s) - 1.
Proof.
  intros Hnd Hin. unfold len, removed. cbn [questions].
  pose proof (filter_length (fun x => Question.id x =? Question.id q) (questions s)) as H.
  rewrite (filter_unique_key Question.id) in H by assumption. cbn in H. lia.
Qed.

Lemma removed_In s question_id x :
  In x (questions (removed s question_id))
  <-> In x (questions s) /\ Question.id x <> question_id.
Proof.
  unfold removed. cbn [questions].
  now rewrite filter_In, negb_true_iff, Z.eqb_neq.
Qed.

Section DeleteFacts.

Variable delete_raises : Storage -> Question.t -> bool.

(** What [DELETE /questions/{id}] answers, by the rows that have the id. *)
Lemma delete_question_run request question_id s :
  serve (delete_question delete_raises request question_id) s
  = match filter (fun q => Question.id q =? question_id) (questions s) with
    | [q] =>
        if delete_raises s q then (unprocessable, s)
        else
          let s' := removed s (Question.id q) in
          let selection := order_by_id (questions s') in
          (JsonResponse
             [("success", VBool true);
              ("deleted", VInt question_id);
              ("questions", VQuestions (paginate_questions request selection 1));
              ("total_questions", VInt (len selection))]
             200, s')
    | _ => (unprocessable, s)
    end.
Proof.
  unfold serve, delete_question, try_except, bind, Question_query.
  destruct (filter _ (questions s)) as [|q [|q' rest]]; try reflexivity.
  cbn [one_or_none ret]. unfold Question_delete.
  destruct (delete_raises s q); reflexivity.
Qed.

(** X4: [DELETE /questions/{id}] answers 200 or the 422 envelope and never
    the 404 one, whatever the storage holds; when it answers 422 nothing is
    deleted. *)
Theorem delete_question_status request question_id s :
  let response := fst (serve (delete_question delete_raises request question_id) s) in
  response <> not_found
  /\ (response = unprocessable \/ status_of response = 200)
  /\ (status_of response <> 200 ->
      snd (serve (delete_question delete_raises request question_id) s) = s).
Proof.
  cbv zeta. rewrite delete_question_run.
  destruct (filter _ (questions s)) as [|q [|q' rest]];
    try (cbn; repeat split; [discriminate | now left]).
  destruct (delete_raises s q); cbn.
  - repeat split; [discriminate | now left].
  - repeat split; [discriminate | now right | congruence].
Qed.

(** X5: for the id of a stored question (ids being unique), when the storage
    accepts the removal, [DELETE /questions/{id}] answers 200 with the id,
    the first-page view of the remaining questions (the page of the request
    if it names one) and a total that is one less; the storage keeps exactly
    the questions of the other ids, and no later [GET /questions] lists the
    id. *)
Theorem delete_question_deletes request question_id s q :
  NoDup (map Question.id (questions s)) ->
  In q (questions s) ->
  Question.id q = question_id ->
  delete_raises s q = false ->
  let s' := removed s question_id in
  serve (delete_question delete_raises request question_id) s
  = (JsonResponse
       [("success", VBool true);
        ("deleted", VInt question_id);
        ("questions",
         VQuestions (paginate_questions request (order_by_id (questions s')) 1));
        ("total_questions", VInt (len (questions s) - 1))]
       200, s')
  /\ (forall x, In x (questions s')
                <-> In x (questions s) /\ Question.id x <> question_id)
  /\ (forall request' l,
        questions_of (fst (serve (retrieve_questions request') s')) = Some l ->
        ~ In question_id (map f_id l)).
Proof.
  intros Hnd Hin <- Hok. cbv zeta. split; [|split].
  - rewrite delete_question_run, (filter_unique_key Question.id), Hok by assumption.
    cbv zeta. unfold len at 1. rewrite length_order_by_id.
    fold (len (questions (removed s (Question.id q)))).
    now rewrite removed_length.
  - intros x. apply removed_In.
  - intros request' l Hl Hid.
    apply in_map_iff in Hid. destruct Hid as (f & Hf & Hinl).
    destruct (retrieve_questions_listed request' _ l Hl f Hinl) as (x & Hx & ->).
    apply removed_In in Hx. cbn in Hf. tauto.
Qed.

(** X6: deleting the same id a second time is answered with the 422
    envelope and changes nothing. *)
Theorem delete_question_twice request request' question_id s :
  status_of (fst (serve (delete_question delete_raises request question_id) s)) = 200 ->
  let s' := snd (serve (delete_question delete_raises request question_id) s) in
  serve (delete_question delete_raises request' question_id) s' = (unprocessable, s').
Proof.
  cbv zeta. rewrite delete_question_run.
  destruct (filter _ (questions s)) as [|q [|q' rest]] eqn:Hf; try discriminate.
  destruct (delete_raises s q); [discriminate|]. intros _. cbn [snd].
  assert (Hq : Question.id q = question_id).
  { assert (Hin : In q (filter (fun q => Question.id q =? question_id) (questions s)))
      by (rewrite Hf; now left).
    apply filter_In in Hin. now apply Z.eqb_eq. }
  rewrite delete_question_run, filter_none; [reflexivity|].
  intros x Hx. apply removed_In in Hx. apply Z.eqb_neq. rewrite <- Hq. tauto.
Qed.

End DeleteFacts.

Lemma delete_question_deletes_witness :
  questions (snd (serve (delete_question never_raises (mkRequest [] Body.empty) 2)
                        (sample_storage 3)))
  = [sample_question 1; sample_question 3].
Proof.
  rewrite (proj1 (delete_question_deletes never_raises (mkRequest [] Body.empty) 2
                    (sample_storage 3) (sample_question 2)
                    ltac:(vm_compute; repeat constructor; cbn; intuition discriminate)
                    ltac:(cbn; tauto) eq_refl eq_refl)).
  reflexivity.
Defined.

Lemma delete_question_twice_witness :
  serve (delete_question never_raises (mkRequest [] Body.empty) 2)
        (removed (sample_storage 3) 2)
  = (unprocessable, removed (sample_storage 3) 2).
Proof.
  exact (delete_question_twice never_raises (mkRequest [] Body.empty)
           (mkRequest [] Body.empty) 2 (sample_storage 3) eq_refl).
Defined.

(** ** Creating, then listing or deleting *)

Lemma insert_by_id_snoc q l new :
  Question.id q < Question.id new ->
  insert_by_id q (l ++ [new]) = insert_by_id q l ++ [new].
Proof.
  intros Hlt. induction l as [|x l IH]; cbn.
  - destruct (Z.leb_spec (Question.id q) (Question.id new)); [reflexivity | lia].
  - destruct (Question.id q <=? Question.id x); [reflexivity|]. now rewrite IH.
Qed.

(** A row whose id is above all others stays last when the rows are put in
    id order. *)
Lemma order_by_id_snoc l new :
  Forall (fun x => Question.id x < Question.id new) l ->
  order_by_id (l ++ [new]) = order_by_id l ++ [new].
Proof.
  unfold order_by_id. induction 1 as [|x l Hx Hl IH]; cbn [app fold_right].
  - reflexivity.
  - rewrite IH. now apply insert_by_id_snoc.
Qed.

Lemma removed_stored s new :
  Question.id new = question_id_seq s ->
  Forall (fun q => Question.id q < question_id_seq s) (questions s) ->
  questions (removed (stored s new) (Question.id new)) = questions s.
Proof.
  intros Hid Hlt. unfold removed, stored. cbn [questions].
  rewrite filter_app. cbn [filter]. rewrite Z.eqb_refl. cbn [negb].
  rewrite app_nil_r. apply filter_all.
  intros x Hx. rewrite Forall_forall in Hlt. specialize (Hlt x Hx).
  apply negb_true_iff, Z.eqb_neq. lia.
Qed.

Section CreateDeleteFacts.

Variable insert_raises : Storage -> Question.t -> bool.
Variable delete_raises : Storage -> Question.t -> bool.

(** X7: on a well-formed storage, a create request without a usable [page]
    parameter is answered with a page whose last entry is the question just
    created. *)
Theorem create_question_shown_last request s q a c d :
  Storage_wf s ->
  truthy (Body.searchTerm (get_json request)) = false ->
  Body.question (get_json request) = Some q ->
  Body.answer (get_json request) = Some a ->
  Body.category (get_json request) = Some c ->
  Body.difficulty (get_json request) = Some d ->
  insert_raises s (Question.mk (question_id_seq s) q a c d) = false ->
  match args_lookup "page" (args request) with
  | None => True
  | Some v => Py.int v = None
  end ->
  exists pre,
    questions_of (fst (serve (create_search_question insert_raises request) s))
    = Some (pre ++ [format (Question.mk (question_id_seq s) q a c d)])
    /\ (List.length pre < 10)%nat.
Proof.
  intros (_ & _ & Hlt) Hsearch Hq Ha Hc Hd Hins Harg.
  rewrite (create_question_run insert_raises request s q a c d) by assumption.
  cbv zeta. cbn [fst questions_of json_get String.eqb Ascii.eqb Bool.eqb].
  set (new := Question.mk (question_id_seq s) q a c d).
  cbn [stored questions]. rewrite order_by_id_snoc by exact Hlt.
  set (sorted := order_by_id (questions s)).
  set (last := Py.ceil_div (len (sorted ++ [new])) 10).
  assert (Hlen : len (sorted ++ [new]) = len sorted + 1).
  { unfold len. rewrite length_app. cbn. lia. }
  pose proof (ceil_div_10_bounds (len (sorted ++ [new])) ltac:(unfold len; lia)) as Hb.
  fold last in Hb. rewrite Hlen in Hb.
  assert (Hpage : args_get_int (args request) "page" last = last).
  { unfold args_get_int. destruct (args_lookup "page" (args request)); trivial.
    now rewrite Harg. }
  assert (H0 : 0 <= len sorted) by (unfold len; lia).
  rewrite paginate_questions_page by (rewrite Hpage; lia). rewrite Hpage.
  rewrite map_app, skipn_app, length_map. cbn [map].
  replace (Z.to_nat ((last - 1) * 10) - List.length sorted)%nat with 0%nat
    by (unfold len in *; lia).
  cbn [skipn].
  exists (skipn (Z.to_nat ((last - 1) * 10)) (map format sorted)).
  assert (Hpre : (List.length (skipn (Z.to_nat ((last - 1) * 10)) (map format sorted)) < 10)%nat).
  { rewrite length_skipn, length_map. unfold len in *. lia. }
  split; [|exact Hpre].
  f_equal. apply firstn_all2. rewrite length_app. cbn. lia.
Qed.

(** X8: on a well-formed storage, creating a question and then deleting the
    id the answer reported gives back the table of questions as it was. *)
Theorem create_then_delete request request' s q a c d :
  Storage_wf s ->
  truthy (Body.searchTerm (get_json request)) = false ->
  Body.question (get_json request) = Some q ->
  Body.answer (get_json request) = Some a ->
  Body.category (get_json request) = Some c ->
  Body.difficulty (get_json request) = Some d ->
  insert_raises s (Question.mk (question_id_seq s) q a c d) = false ->
  let new := Question.mk (question_id_seq s) q a c d in
  let s1 := snd (serve (create_search_question insert_raises request) s) in
  delete_raises s1 new = false ->
  let outcome := serve (delete_question delete_raises request' (question_id_seq s)) s1 in
  status_of (fst outcome) = 200
  /\ questions (snd outcome) = questions s
  /\ categories (snd outcome) = categories s.
Proof.
  intros Hwf Hsearch Hq Ha Hc Hd Hins. cbv zeta.
  rewrite (create_question_run insert_raises request s q a c d) by assumption.
  cbv zeta. cbn [snd]. set (new := Question.mk (question_id_seq s) q a c d).
  intros Hdel.
  destruct (stored_wf s new eq_refl Hwf) as ((Hnd & _) & _).
  assert (Hfound : filter (fun x => Question.id x =? question_id_seq s)
                           (questions (stored s new)) = [new]).
  { apply (filter_unique_key Question.id (questions (stored s new)) new Hnd).
    cbn. apply in_or_app. right. now left. }
  rewrite delete_question_run, Hfound, Hdel. cbv zeta. cbn [fst snd status_of].
  split; [reflexivity|]. split; [|reflexivity].
  apply removed_stored; [reflexivity | apply Hwf].
Qed.

End CreateDeleteFacts.

Lemma create_question_shown_last_witness :
  exists pre,
    questions_of
      (fst (serve (create_search_question never_raises
                     (mkRequest [] (create_body (Some "Who?") (Some "Me") (Some 1) (Some 2))))
                  (sample_storage 12)))
    = Some (pre ++ [format (Question.mk 13 "Who?" "Me" 1 2)])
    /\ (List.length pre < 10)%nat.
Proof.
  refine (create_question_shown_last never_raises
            (mkRequest [] (create_body (Some "Who?") (Some "Me") (Some 1) (Some 2)))
            (sample_storage 12) "Who?" "Me" 1 2 _
            eq_refl eq_refl eq_refl eq_refl eq_refl eq_refl I).
  unfold Storage_wf. vm_compute.
  repeat split; repeat constructor; cbn; intuition discriminate.
Defined.

Lemma create_then_delete_witness :
  questions
    (snd (serve (delete_question never_raises (mkRequest [] Body.empty) 4)
            (snd (serve (create_search_question never_raises
                           (mkRequest [] (create_body (Some "Who?") (Some "Me")
                                                      (Some 1) (Some 2))))
                        (sample_storage 3)))))
  = questions (sample_storage 3).
Proof.
  refine (proj1 (proj2 (create_then_delete never_raises never_raises
            (mkRequest [] (create_body (Some "Who?") (Some "Me") (Some 1) (Some 2)))
            (mkRequest [] Body.empty)
            (sample_storage 3) "Who?" "Me" 1 2 _
            eq_refl eq_refl eq_refl eq_refl eq_refl eq_refl eq_refl))).
  unfold Storage_wf. vm_compute.
  repeat split; repeat constructor; cbn; intuition discriminate.
Defined.

(** ** What the handlers write *)

Lemma random_choice_storage {A} (rnd : nat) (seq : list A) s :
  snd (random_choice rnd seq s) = s.
Proof. unfold random_choice. now destruct (nth_error seq _). Qed.

Lemma NoDup_map_filter {A} (key : A -> Z) (f : A -> bool) (l : list A) :
  NoDup (map key l) -> NoDup (map key (filter f l)).
Proof.
  induction l as [|x l IH]; cbn; intros Hnd; [constructor|].
  inversion Hnd as [|? ? Hnotin Hnd']; subst.
  destruct (f x); cbn; [|now apply IH].
  constructor; [|now apply IH].
  intros Hin. apply Hnotin. apply in_map_iff in Hin.
  destruct Hin as (y & Hy & Hin). apply filter_In in Hin.
  apply in_map_iff. exists y. tauto.
Qed.

Lemma removed_wf s question_id : Storage_wf s -> Storage_wf (removed s question_id).
Proof.
  intros (Hq & Hc & Hlt). unfold Storage_wf, removed. cbn.
  split; [now apply NoDup_map_filter|]. split; [assumption|].
  apply Forall_forall. intros x Hx. apply filter_In in Hx.
  rewrite Forall_forall in Hlt. now apply Hlt.
Qed.

Section EffectFacts.

Variable insert_raises : Storage -> Question.t -> bool.
Variable delete_raises : Storage -> Question.t -> bool.

(** The storage after [POST /questions]: as before, or with one more
    question, numbered by the sequence, when the answer is 200 on the create
    branch. *)
Lemma create_search_question_effect request s :
  let outcome := serve (create_search_question insert_raises request) s in
  snd outcome = s
  \/ (status_of (fst outcome) = 200
      /\ truthy (Body.searchTerm (get_json request)) = false
      /\ exists q a c d,
           snd outcome = stored s (Question.mk (question_id_seq s) q a c d)).
Proof.
  cbv zeta. unfold serve, create_search_question.
  destruct (truthy (Body.searchTerm (get_json request))) eqn:Hsearch.
  - left. unfold bind, Question_query, ret, when, abort, raise.
    destruct (len _ =? 0); reflexivity.
  - unfold try_except, bind, when.
    destruct (Body.question (get_json request)) as [q|]; [|now left].
    destruct (Body.answer (get_json request)) as [a|]; [|now left].
    destruct (Body.category (get_json request)) as [c|]; [|now left].
    destruct (Body.difficulty (get_json request)) as [d|]; [|now left].
    cbn [is_None orb ret]. unfold Question_insert.
    destruct (insert_raises s _); [now left|].
    right. cbn. split; [reflexivity|]. split; [reflexivity|]. now exists q, a, c, d.
Qed.

(** The storage after [DELETE /questions/{id}]: as before, or without the
    questions of the id when the answer is 200. *)
Lemma delete_question_effect request question_id s :
  let outcome := serve (delete_question delete_raises request question_id) s in
  snd outcome = s
  \/ (status_of (fst outcome) = 200 /\ snd outcome = removed s question_id).
Proof.
  cbv zeta. rewrite delete_question_run.
  destruct (filter _ (questions s)) as [|q [|q' rest]] eqn:Hf; try now left.
  destruct (delete_raises s q); [now left|]. right. cbn.
  assert (Hin : In q (filter (fun q => Question.id q =? question_id) (questions s)))
    by (rewrite Hf; now left).
  apply filter_In in Hin. destruct Hin as [_ Hid]. apply Z.eqb_eq in Hid.
  now rewrite Hid.
Qed.

(** X9: the four handlers that only read leave the storage as it is, the
    search branch of [POST /questions] writes nothing, and a create or a
    delete that is not answered with 200 writes nothing either. *)
Theorem storage_written_only_on_success request rnd category_id question_id s :
  snd (serve retrieve_categories s) = s
  /\ snd (serve (retrieve_questions request) s) = s
  /\ snd (serve (retrieve_questions_by_selected_category request category_id) s) = s
  /\ snd (serve (create_quiz_questions rnd request) s) = s
  /\ (truthy (Body.searchTerm (get_json request)) = true ->
      snd (serve (create_search_question insert_raises request) s) = s)
  /\ (status_of (fst (serve (create_search_question insert_raises request) s)) <> 200 ->
      snd (serve (create_search_question insert_raises request) s) = s)
  /\ (status_of (fst (serve (delete_question delete_raises request question_id) s)) <> 200 ->
      snd (serve (delete_question delete_raises request question_id) s) = s).
Proof.
  repeat split.
  - unfold serve, retrieve_categories, bind, Category_query, ret, when, abort, raise.
    destruct (len _ =? 0); reflexivity.
  - now rewrite retrieve_questions_run.
  - unfold serve, retrieve_questions_by_selected_category, bind, Category_query.
    destruct (filter _ (categories s)) as [|c [|c' rest]]; reflexivity.
  - unfold serve, create_quiz_questions, bind, when, Question_query.
    destruct (Body.quiz_category (get_json request)) as [qc|]; [|reflexivity].
    destruct (Body.previous_questions (get_json request)) as [pq|]; [|reflexivity].
    cbn [is_None orb ret].
    match goal with |- context [if len ?l =? 0 then _ else _] =>
      destruct (len l =? 0); [reflexivity|];
      pose proof (random_choice_storage rnd l s) as Hs;
      destruct (random_choice rnd l s) as [[x|e] s'] end; cbn in Hs |- *; now subst.
  - intros Hsearch.
    destruct (create_search_question_effect request s) as [H | (_ & H & _)];
      [exact H | congruence].
  - intros Hstatus.
    destruct (create_search_question_effect request s) as [H | (H & _)];
      [exact H | contradiction].
  - intros Hstatus.
    destruct (delete_question_effect request question_id s) as [H | (H & _)];
      [exact H | contradiction].
Qed.

(** X10: every handler keeps the storage well formed: ids stay unique and
    below the sequence that numbers new questions. *)
Theorem handlers_keep_storage_wf request question_id s :
  Storage_wf s ->
  Storage_wf (snd (serve (create_search_question insert_raises request) s))
  /\ Storage_wf (snd (serve (delete_question delete_raises request question_id) s)).
Proof.
  intros Hwf. split.
  - destruct (create_search_question_effect request s)
      as [-> | (_ & _ & q & a & c & d & ->)]; [assumption|].
    now apply stored_wf.
  - destruct (delete_question_effect request question_id s) as [-> | (_ & ->)];
      [assumption | now apply removed_wf].
Qed.

End EffectFacts.

Lemma sample_storage_3_wf : Storage_wf (sample_storage 3).
Proof.
  unfold Storage_wf. vm_compute.
  repeat split; repeat constructor; cbn; intuition discriminate.
Defined.

Lemma storage_written_only_on_success_witness :
  snd (serve (create_search_question never_raises
                (mkRequest [] (create_body (Some "Who?") None (Some 1) (Some 2))))
             (sample_storage 3))
  = sample_storage 3.
Proof.
  refine (proj1 (proj2 (proj2 (proj2 (proj2 (proj2
            (storage_written_only_on_success never_raises never_raises
               (mkRequest [] (create_body (Some "Who?") None (Some 1) (Some 2)))
               0%nat 0 0 (sample_storage 3))))))) _).
  vm_compute. discriminate.
Defined.

Lemma handlers_keep_storage_wf_witness :
  Storage_wf
    (snd (serve (create_search_question never_raises
                   (mkRequest [] (create_body (Some "Who?") (Some "Me") (Some 1) (Some 2))))
                (sample_storage 3))).
Proof.
  exact (proj1 (handlers_keep_storage_wf never_raises never_raises
                  (mkRequest [] (create_body (Some "Who?") (Some "Me") (Some 1) (Some 2)))
                  0 (sample_storage 3) sample_storage_3_wf)).
Defined.

(** ** The categories *)

Lemma insert_cat_by_id_perm c l : Permutation (insert_cat_by_id c l) (c :: l).
Proof.
  induction l as [|x l IH]; cbn; [reflexivity|].
  destruct (Category.id c <=? Category.id x); [reflexivity|].
  rewrite IH. apply perm_swap.
Qed.

Lemma order_cat_by_id_perm l : Permutation (order_cat_by_id l) l.
Proof.
  unfold order_cat_by_id. induction l as [|x l IH]; cbn [fold_right]; [reflexivity|].
  rewrite insert_cat_by_id_perm. now constructor.
Qed.

Lemma dict_set_fresh k v d :
  ~ In k (map fst d) -> dict_set k v d = d ++ [(k, v)].
Proof.
  induction d as [|[k' v'] d IH]; cbn; intros Hk; [reflexivity|].
  destruct (Z.eqb_spec k' k) as [-> | _]; [tauto|]. rewrite IH; tauto.
Qed.

Lemma dict_set_nonempty k v d : dict_set k v d <> [].
Proof. destruct d as [|[k' v'] d]; cbn; [|destruct (k' =? k)]; discriminate. Qed.

Lemma cat_dict_fold_nonempty l acc :
  acc <> [] ->
  fold_left (fun d cat => dict_set (Category.id cat) (Category.type cat) d) l acc <> [].
Proof.
  revert acc; induction l as [|c l IH]; cbn; intros acc Hacc; [assumption|].
  apply IH, dict_set_nonempty.
Qed.

(** With unique ids, the dictionary holds one entry per category, in the
    order of the rows. *)
Lemma cat_dict_fold l acc :
  NoDup (map fst acc ++ map Category.id l) ->
  fold_left (fun d cat => dict_set (Category.id cat) (Category.type cat) d) l acc
  = acc ++ map (fun c => (Category.id c, Category.type c)) l.
Proof.
  revert acc; induction l as [|c l IH]; cbn [fold_left map]; intros acc Hnd.
  - now rewrite app_nil_r.
  - assert (Hfresh : ~ In (Category.id c) (map fst acc)).
    { intros Hin. apply NoDup_remove_2 in Hnd. apply Hnd.
      apply in_or_app. now left. }
    rewrite dict_set_fresh by assumption.
    rewrite IH.
    + now rewrite <- app_assoc.
    + rewrite map_app. cbn [map fst]. rewrite <- app_assoc. exact Hnd.
Qed.

(** X11: [GET /categories] answers 404 exactly when no category is stored;
    with unique category ids it otherwise answers 200 with a dictionary that
    maps every stored id to its type and holds nothing else. *)
Theorem retrieve_categories_spec s :
  (fst (serve retrieve_categories s) = not_found <-> categories s = [])
  /\ snd (serve retrieve_categories s) = s
  /\ (categories s <> [] ->
      NoDup (map Category.id (categories s)) ->
      exists d,
        fst (serve retrieve_categories s)
        = JsonResponse [("success", VBool true); ("categories", VDict d)] 200
        /\ d = map (fun c => (Category.id c, Category.type c))
                   (order_cat_by_id (categories s))
        /\ forall k v, In (k, v) d <-> In (Category.mk k v) (categories s)).
Proof.
  assert (Hempty : cat_dict_of (order_cat_by_id (categories s)) = []
                   <-> categories s = []).
  { split.
    - intros Hd. pose proof (order_cat_by_id_perm (categories s)) as Hperm.
      destruct (order_cat_by_id (categories s)) as [|c l].
      + now apply Permutation_nil.
      + exfalso. revert Hd. unfold cat_dict_of. cbn [fold_left].
        apply cat_dict_fold_nonempty, dict_set_nonempty.
    - intros ->. reflexivity. }
  assert (Hrun : serve retrieve_categories s
            = (if len (cat_dict_of (order_cat_by_id (categories s))) =? 0
               then not_found
               else JsonResponse
                      [("success", VBool true);
                       ("categories",
                        VDict (cat_dict_of (order_cat_by_id (categories s))))] 200,
               s)).
  { unfold serve, retrieve_categories, bind, Category_query, ret, when, abort, raise.
    destruct (len _ =? 0); reflexivity. }
  rewrite Hrun. cbn [fst snd]. split; [|split; [reflexivity|]].
  - destruct (len _ =? 0) eqn:Hlen.
    + apply len_eq_0 in Hlen. split; [intros _; now apply Hempty | reflexivity].
    + split; [discriminate|]. intros Hnil. apply Hempty, len_eq_0 in Hnil. congruence.
  - intros Hne Hnd.
    assert (Hnd' : NoDup (map Category.id (order_cat_by_id (categories s)))).
    { eapply Permutation_NoDup; [|exact Hnd].
      apply Permutation_map. symmetry. apply order_cat_by_id_perm. }
    assert (Hd : cat_dict_of (order_cat_by_id (categories s))
                 = map (fun c => (Category.id c, Category.type c))
                       (order_cat_by_id (categories s))).
    { unfold cat_dict_of. now rewrite cat_dict_fold. }
    exists (cat_dict_of (order_cat_by_id (categories s))).
    destruct (len _ =? 0) eqn:Hlen.
    + apply len_eq_0, Hempty in Hlen. contradiction.
    + split; [reflexivity|]. split; [exact Hd|].
      intros k v. rewrite Hd, in_map_iff. split.
      * intros (c & Hc & Hin). injection Hc as <- <-.
        destruct c. cbn. eapply Permutation_in; [apply order_cat_by_id_perm | exact Hin].
      * intros Hin. exists (Category.mk k v). split; [reflexivity|].
        eapply Permutation_in; [symmetry; apply order_cat_by_id_perm | exact Hin].
Qed.

Lemma retrieve_categories_spec_witness :
  exists d,
    fst (serve retrieve_categories (sample_storage 3))
    = JsonResponse [("success", VBool true); ("categories", VDict d)] 200
    /\ In (2, "Art") d.
Proof.
  destruct (proj2 (proj2 (retrieve_categories_spec (sample_storage 3)))
              ltac:(discriminate)
              ltac:(vm_compute; repeat constructor; cbn; intuition discriminate))
    as (d & Hd & _ & Hin).
  exists d. split; [exact Hd|]. apply Hin. cbn. tauto.
Defined.

(** ** The status codes of each handler *)

Ltac answered :=
  unfold answered_with; do 2 eexists;
  split; [reflexivity|];
  split; [cbn; tauto|];
  split; [reflexivity|];
  intros Hstatus; first [reflexivity | congruence].

(** With unique keys at most one row has a given key. *)
Lemma filter_key_at_most_one {A} (key : A -> Z) (l : list A) (k : Z) x y rest :
  NoDup (map key l) ->
  filter (fun z => key z =? k) l <> x :: y :: rest.
Proof.
  intros Hnd Hf.
  assert (Hx : In x (filter (fun z => key z =? k) l)) by (rewrite Hf; now left).
  apply filter_In in Hx. destruct Hx as [Hx Hk]. apply Z.eqb_eq in Hk. subst k.
  rewrite (filter_unique_key key l x Hnd Hx) in Hf. discriminate.
Qed.

Section StatusFacts.

Variable delete_raises : Storage -> Question.t -> bool.

(** X12: when the category ids are unique, the four handlers that read no
    request body answer every request with a JSON body, never with an
    unhandled exception, and with a status the handler provides for: 200 or
    404 for the two listings, 200 or 422 for a delete, 200 or 400 for the
    questions of a category. The body's [success] is true exactly on a 200,
    and [error] repeats a failure's status. *)
Theorem bodyless_handlers_answer_json request category_id question_id s :
  NoDup (map Category.id (categories s)) ->
  answered_with [200; 404] (fst (serve retrieve_categories s))
  /\ answered_with [200; 404] (fst (serve (retrieve_questions request) s))
  /\ answered_with [200; 422]
       (fst (serve (delete_question delete_raises request question_id) s))
  /\ answered_with [200; 400]
       (fst (serve (retrieve_questions_by_selected_category request category_id) s)).
Proof.
  intros Hnd. repeat apply conj.
  - unfold serve, retrieve_categories, bind, Category_query, ret, when, abort, raise.
    destruct (len _ =? 0); answered.
  - rewrite retrieve_questions_run. cbv zeta. destruct (len _ =? 0); answered.
  - rewrite delete_question_run.
    destruct (filter _ (questions s)) as [|q [|q' rest]]; try answered.
    destruct (delete_raises s q); answered.
  - unfold serve, retrieve_questions_by_selected_category, bind, Category_query.
    destruct (filter _ (categories s)) as [|c [|c' rest]] eqn:Hf; try answered.
    exfalso. revert Hf. now apply filter_key_at_most_one.
Qed.

End StatusFacts.

Lemma bodyless_handlers_answer_json_witness :
  answered_with [200; 400]
    (fst (serve (retrieve_questions_by_selected_category (mkRequest [] Body.empty) 9)
                (sample_storage 3))).
Proof.
  refine (proj2 (proj2 (proj2
            (bodyless_handlers_answer_json never_raises (mkRequest [] Body.empty)
               9 0 (sample_storage 3) _)))).
  vm_compute. repeat constructor; cbn; intuition discriminate.
Defined.

(** ** Case in a search *)

Lemma lower_search_pattern term :
  Py.lower (list_ascii_of_string ("%" ++ term ++ "%")%string)
  = "%"%char :: Py.lower (list_ascii_of_string term) ++ ["%"%char].
Proof.
  change ("%" ++ term ++ "%")%string with (String "%"%char (term ++ "%")%string).
  cbn [list_ascii_of_string]. rewrite list_ascii_of_string_app.
  unfold Py.lower. cbn [map]. rewrite map_app. reflexivity.
Qed.

Section SearchCaseFacts.

Variable insert_raises : Storage -> Question.t -> bool.

(** X13: a search does not tell upper from lower case in the term: two
    requests with the same query string whose terms differ only in the case
    of their letters get the same answer. *)
Theorem search_ignores_case request1 request2 term1 term2 s :
  Body.searchTerm (get_json request1) = Some term1 ->
  Body.searchTerm (get_json request2) = Some term2 ->
  term1 <> "" ->
  term2 <> "" ->
  Py.lower (list_ascii_of_string term1) = Py.lower (list_ascii_of_string term2) ->
  args request1 = args request2 ->
  serve (create_search_question insert_raises request1) s
  = serve (create_search_question insert_raises request2) s.
Proof.
  intros H1 H2 Hne1 Hne2 Hlower Hargs.
  rewrite (search_questions_run insert_raises request1 s term1 H1 Hne1).
  rewrite (search_questions_run insert_raises request2 s term2 H2 Hne2).
  cbv zeta.
  assert (Hsel :
    filter (fun q => Sql.ilike (Question.question q) ("%" ++ term1 ++ "%")%string)
           (order_by_id (questions s))
    = filter (fun q => Sql.ilike (Question.question q) ("%" ++ term2 ++ "%")%string)
             (order_by_id (questions s))).
  { apply filter_ext. intros q. unfold Sql.ilike.
    now rewrite !lower_search_pattern, Hlower. }
  rewrite Hsel. unfold paginate_questions. now rewrite Hargs.
Qed.

End SearchCaseFacts.

Lemma search_ignores_case_witness :
  serve (create_search_question never_raises (mkRequest [] (search_body "PLANET")))
        (sample_storage 2)
  = serve (create_search_question never_raises (mkRequest [] (search_body "planet")))
          (sample_storage 2).
Proof.
  apply (search_ignores_case never_raises
           (mkRequest [] (search_body "PLANET")) (mkRequest [] (search_body "planet"))
           "PLANET" "planet" (sample_storage 2));
    solve [reflexivity | discriminate].
Defined.

Lemma delete_question_status_witness :
  snd (serve (delete_question never_raises (mkRequest [] Body.empty) 999)
             (sample_storage 3))
  = sample_storage 3.
Proof.
  refine (proj2 (proj2 (delete_question_status never_raises (mkRequest [] Body.empty)
                          999 (sample_storage 3))) _).
  vm_compute. discriminate.
Defined.
